(** * madison-lake-levels: the fetcher (scrape.py) and the store

    A shallow embedding of [madison_lake_levels/scrape.py] and of the
    [levels] store exercised by [tests/test_db.py], with the properties
    of the specification stated and proved over it.

    Conventions.
    - A Python [str] is a Rocq [string]; a character stands for the
      Unicode code point of the same number (0..255).
    - A Python exception is a value of [exn]; code that may raise returns
      a [result].
    - A Python [float] is an IEEE 754 binary64 number, [spec_float] with
      precision 53 and maximal exponent 1024.
    - A [dict] keeps its items in the order of insertion (Python 3.7),
      and pandas is a version that still has [Series.iteritems]
      (before 2.0). *)

From Stdlib Require Import ZArith List String Ascii Bool Lia.
From Stdlib Require Import Floats.SpecFloat DecimalString.
From stdpp Require Import base option list gmap strings.

Local Open Scope string_scope.
Local Open Scope list_scope.
#[local] Arguments String.append !_ _ / : simpl nomatch.

(** ** Python values

    The values that [json.loads] and [pandas.read_csv] hand to the
    program: [None], [bool], [int], [float], [str], [list] and [dict]
    (with its items in insertion order, the keys distinct). *)

#[local] Set Warnings "-register-all".
Inductive pyval : Type :=
| PNone
| PBool (b : bool)
| PInt (z : Z)
| PFloat (f : spec_float)
| PStr (s : string)
| PList (l : list pyval)
| PDict (items : list (string * pyval)).

(** ** Exceptions and results *)

(** The exceptions the program raises itself, by a [raise], an [assert]
    or a failing operation of the interpreter, and [LibraryError] for
    whatever is raised inside a library call ([float] on a [str],
    [requests.post], [json.loads], [pd.read_csv], [pd.to_datetime]),
    with a description.  [ValueError] is the [raise] of line 45,
    [AssertionError] the [assert] of line 69, [IntegrityError] the
    exception of [sqlite3]. *)
Inductive exn : Type :=
| ValueError (msg : string)
| IndexError
| KeyError (key : pyval)
| TypeError
| AttributeError
| AssertionError
| OverflowError
| IntegrityError
| LibraryError (what : string).

Inductive result (A : Type) : Type :=
| Ok (a : A)
| Raise (e : exn).
Arguments Ok {A} a.
Arguments Raise {A} e.

#[global] Instance result_ret : MRet result := fun A a => Ok a.
#[global] Instance result_bind : MBind result := fun A B k r =>
  match r with
  | Ok a => k a
  | Raise e => Raise e
  end.

#[global] Instance result_fmap : FMap result := fun A B f r =>
  match r with
  | Ok a => Ok (f a)
  | Raise e => Raise e
  end.

(** [[f(x) for x in l]]: the elements are visited from left to right and
    the first exception ends the comprehension. *)
Fixpoint rmap {A B} (f : A -> result B) (l : list A) : result (list B) :=
  match l with
  | [] => Ok []
  | x :: l' => y ← f x; ys ← rmap f l'; Ok (y :: ys)
  end.

(** The outcome of a library call. *)
Inductive answer (A : Type) : Type :=
| Returns (a : A)
| Fails (what : string).
Arguments Returns {A} a.
Arguments Fails {A} what.

Definition call {A} (r : answer A) : result A :=
  match r with
  | Returns a => Ok a
  | Fails what => Raise (LibraryError what)
  end.

(** ** Python strings *)

Module PyStr.

Definition code (c : ascii) : N := N_of_ascii c.

(** [str.isspace] on one character, for the code points below 256. *)
Definition isspace (c : ascii) : bool :=
  let n := code c in
  ((9 <=? n) && (n <=? 13) || (28 <=? n) && (n <=? 32)
   || (n =? 133) || (n =? 160))%N.

(** [str.lower] on one character, for the code points below 256: the
    letters A..Z and the Latin-1 capitals (all of 0xC0..0xDE but the
    multiplication sign 0xD7) move up by 32. *)
Definition lower_char (c : ascii) : ascii :=
  let n := code c in
  if ((65 <=? n) && (n <=? 90)
      || (192 <=? n) && (n <=? 222) && negb (n =? 215))%N
  then ascii_of_N (n + 32) else c.

Fixpoint lower (s : string) : string :=
  match s with
  | EmptyString => EmptyString
  | String c s' => String (lower_char c) (lower s')
  end.

(** [s.split()] with no argument: the scan of CPython's
    [split_whitespace].  [tok] is the token being read, [None] between
    tokens. *)
Fixpoint split_scan (tok : option string) (s : string) : list string :=
  match s with
  | EmptyString =>
      match tok with
      | None => []
      | Some t => [t]
      end
  | String c s' =>
      if isspace c then
        match tok with
        | None => split_scan None s'
        | Some t => t :: split_scan None s'
        end
      else
        match tok with
        | None => split_scan (Some (String c EmptyString)) s'
        | Some t => split_scan (Some (t +:+ String c EmptyString)) s'
        end
  end.

Definition split_whitespace (s : string) : list string := split_scan None s.

(** [s.split(sep)] for a one-character separator: always at least one
    piece, empty pieces kept. *)
Fixpoint split_char (sep : ascii) (s : string) : list string :=
  match s with
  | EmptyString => [EmptyString]
  | String c s' =>
      if Ascii.eqb c sep then EmptyString :: split_char sep s'
      else match split_char sep s' with
           | p :: ps => String c p :: ps
           | [] => [String c EmptyString]
           end
  end.

(** [sep.join(pieces)]. *)
Fixpoint join (sep : string) (pieces : list string) : string :=
  match pieces with
  | [] => EmptyString
  | [p] => p
  | p :: ps => p +:+ sep +:+ join sep ps
  end.

(** [s.startswith(c)] for a one-character prefix. *)
Definition startswith_char (c : ascii) (s : string) : bool :=
  match s with
  | String c' _ => Ascii.eqb c' c
  | EmptyString => false
  end.

Fixpoint all_chars (p : ascii -> bool) (s : string) : bool :=
  match s with
  | EmptyString => true
  | String c s' => p c && all_chars p s'
  end.

End PyStr.

(** ** Python floats *)

Module Float64.

Definition prec : Z := 53.
Definition emax : Z := 1024.

Definition add : spec_float -> spec_float -> spec_float := SFadd prec emax.
Definition eqb : spec_float -> spec_float -> bool := SFeqb.
Definition nan : spec_float := S754_nan.

(** The float nearest to an integer, ties to even; an infinity when
    the integer is beyond the range. *)
Definition of_Z (z : Z) : spec_float := binary_normalize prec emax z 0 false.

Definition is_infinite (f : spec_float) : bool :=
  match f with
  | S754_infinity _ => true
  | _ => false
  end.

Definition is_nan (f : spec_float) : bool :=
  match f with
  | S754_nan => true
  | _ => false
  end.

(** [float == int], exact: the float [m * 2^e] against the integer. *)
Definition eqb_Z (f : spec_float) (z : Z) : bool :=
  match f with
  | S754_zero _ => (z =? 0)%Z
  | S754_finite s m e =>
      let v := (if s then Z.neg m else Z.pos m) in
      if (0 <=? e)%Z then (z =? v * 2 ^ e)%Z else (z * 2 ^ (- e) =? v)%Z
  | _ => false
  end.

End Float64.

Module Py.

Fixpoint assoc {V} (k : string) (items : list (string * V)) : option V :=
  match items with
  | [] => None
  | (k', v) :: items' => if String.eqb k' k then Some v else assoc k items'
  end.

Fixpoint chars (s : string) : list string :=
  match s with
  | EmptyString => []
  | String c s' => String c EmptyString :: chars s'
  end.

(** [x[key]] for a string key. *)
Definition getitem (x : pyval) (key : string) : result pyval :=
  match x with
  | PDict items =>
      match assoc key items with
      | Some v => Ok v
      | None => Raise (KeyError (PStr key))
      end
  | _ => Raise TypeError
  end.

(** [x[0]]. *)
Definition getitem0 (x : pyval) : result pyval :=
  match x with
  | PList (v :: _) => Ok v
  | PList [] => Raise IndexError
  | PStr (String c _) => Ok (PStr (String c EmptyString))
  | PStr EmptyString => Raise IndexError
  | PDict _ => Raise (KeyError (PInt 0))
  | _ => Raise TypeError
  end.

(** The elements that [for v in x] visits. *)
Definition iter (x : pyval) : result (list pyval) :=
  match x with
  | PList l => Ok l
  | PDict items => Ok (map (fun kv => PStr (fst kv)) items)
  | PStr s => Ok (map PStr (chars s))
  | _ => Raise TypeError
  end.

Definition hashable (x : pyval) : bool :=
  match x with
  | PList _ | PDict _ => false
  | _ => true
  end.

Definition Z_of_bool (b : bool) : Z := if b then 1%Z else 0%Z.

(** Whether [b] is the key [a], as a [dict] and an index look a key
    up: the same object, or [a == b] on hashable values, numbers by
    value ([True == 1 == 1.0]).  A NaN equals nothing, but the NaN
    values of one JSON document are one object ([json.loads] returns
    the same float for every [NaN]), which is found by identity: a NaN
    key is the NaN key. *)
Definition key_eqb (a b : pyval) : bool :=
  match a, b with
  | PNone, PNone => true
  | PStr s, PStr t => String.eqb s t
  | PBool x, PBool y => Bool.eqb x y
  | PBool x, PInt z | PInt z, PBool x => (Z_of_bool x =? z)%Z
  | PBool x, PFloat f | PFloat f, PBool x => Float64.eqb_Z f (Z_of_bool x)
  | PInt x, PInt y => (x =? y)%Z
  | PInt z, PFloat f | PFloat f, PInt z => Float64.eqb_Z f z
  | PFloat f, PFloat g =>
      Float64.eqb f g || (Float64.is_nan f && Float64.is_nan g)
  | _, _ => false
  end.

Fixpoint dict_set {V} (k : pyval) (v : V) (d : list (pyval * V))
  : list (pyval * V) :=
  match d with
  | [] => [(k, v)]
  | (k', v') :: d' =>
      if key_eqb k' k then (k', v) :: d' else (k', v') :: dict_set k v d'
  end.

(** [dict(pairs)]: a key seen again keeps its place and takes the new
    value; an unhashable key raises [TypeError]. *)
Fixpoint dict_update {V} (d : list (pyval * V)) (pairs : list (pyval * V))
  : result (list (pyval * V)) :=
  match pairs with
  | [] => Ok d
  | (k, v) :: pairs' =>
      if hashable k then dict_update (dict_set k v d) pairs'
      else Raise TypeError
  end.

Definition dict {V} (pairs : list (pyval * V)) : result (list (pyval * V)) :=
  dict_update [] pairs.

Fixpoint dict_get {V} (k : pyval) (d : list (pyval * V)) : option V :=
  match d with
  | [] => None
  | (k', v) :: d' => if key_eqb k' k then Some v else dict_get k d'
  end.

(** The string keys of a dictionary, in its order. *)
Fixpoint str_keys {V} (d : list (pyval * V)) : list string :=
  match d with
  | [] => []
  | (PStr t, _) :: d' => t :: str_keys d'
  | _ :: d' => str_keys d'
  end.

End Py.

(** ** pandas *)

Record DataFrame (L V : Type) : Type := mkDataFrame {
  df_index : list L;
  df_columns : list (string * list V)
}.
Arguments mkDataFrame {L V} _ _.
Arguments df_index {L V} _.
Arguments df_columns {L V} _.

Module Pd.

Section Frame.
Context {L V : Type}.

(** [pd.DataFrame({})]. *)
Definition empty : DataFrame L V := mkDataFrame [] [].

(** [df[name]], the values of the column. *)
Definition getitem (df : DataFrame L V) (name : string)
  : result (list V) :=
  match Py.assoc name (df_columns df) with
  | Some col => Ok col
  | None => Raise (KeyError (PStr name))
  end.

(** Store a column: in place when the name exists, at the end
    otherwise. *)
Fixpoint set_column (name : string) (col : list V)
    (cols : list (string * list V)) : list (string * list V) :=
  match cols with
  | [] => [(name, col)]
  | (n, c) :: cols' =>
      if String.eqb n name then (n, col) :: cols'
      else (n, c) :: set_column name col cols'
  end.

(** [df[name] = s] where [s] was computed from a column of [df]
    ([df[c].apply(f)], [df[c] + x]) and so carries the index of [df]:
    the values are stored as they are. *)
Definition setitem_own (df : DataFrame L V) (name : string)
    (col : list V) : DataFrame L V :=
  mkDataFrame (df_index df) (set_column name col (df_columns df)).

(** [df.iloc[1:]]. *)
Definition iloc_from1 (df : DataFrame L V) : DataFrame L V :=
  mkDataFrame (tail (df_index df))
              (map (fun nc => (fst nc, tail (snd nc))) (df_columns df)).

Fixpoint drop_column (name : string) (cols : list (string * list V))
  : list (string * list V) :=
  match cols with
  | [] => []
  | (n, c) :: cols' =>
      if String.eqb n name then cols' else (n, c) :: drop_column name cols'
  end.

(** [df[name].iteritems()]: the pairs of index label and value. *)
Definition iteritems (df : DataFrame L V) (name : string)
  : result (list (L * V)) :=
  col ← getitem df name; Ok (zip (df_index df) col).

Definition column_names (df : DataFrame L V) : list string :=
  map fst (df_columns df).

(** The value in the column [name] at the position [i]. *)
Definition cell (df : DataFrame L V) (name : string) (i : nat)
  : option V :=
  col ← Py.assoc name (df_columns df); col !! i.

End Frame.

(** [df.set_index(name, drop=True)]. *)
Definition set_index {L V} (df : DataFrame L V) (name : string)
  : result (DataFrame V V) :=
  col ← getitem df name;
  Ok (mkDataFrame col (drop_column name (df_columns df))).

Section Align.
Context {V : Type} (fill : V).

(** [s.reindex(idx)]: the value of [s] at each label of [idx], the
    fill value where [s] has none.  The labels of [s] are the keys of
    a [dict] and so distinct. *)
Definition reindex (s : list (pyval * V)) (idx : list pyval) : list V :=
  map (fun l => default fill (Py.dict_get l s)) idx.

Fixpoint index_equals (a b : list pyval) : bool :=
  match a, b with
  | [], [] => true
  | x :: a', y :: b' => Py.key_eqb x y && index_equals a' b'
  | _, _ => false
  end.

(** What [df[name] = s] first does to a frame without rows: a
    non-empty [s] gives the frame its index, and the columns already
    there are filled over it. *)
Definition ensure_valid_index (df : DataFrame pyval V)
    (s : list (pyval * V)) : DataFrame pyval V :=
  match df_index df, s with
  | [], _ :: _ =>
      mkDataFrame (map fst s)
        (map (fun nc => (fst nc, map (fun _ => fill) s)) (df_columns df))
  | _, _ => df
  end.

(** [df[name] = s] for a Series [s] ([DataFrame.__setitem__], through
    [_ensure_valid_index] and [_reindex_for_setitem]): the values of [s]
    are stored as they are when its index equals that of the frame, and
    are aligned to the index of the frame otherwise: a label of [s] that
    the frame does not have is left out, a label of the frame that [s]
    does not have gets the fill value. *)
Definition setitem (df : DataFrame pyval V) (name : string)
    (s : list (pyval * V)) : DataFrame pyval V :=
  let df' := ensure_valid_index df s in
  let col :=
    if index_equals (map fst s) (df_index df')
       || match df_index df' with [] => true | _ => false end
    then map snd s
    else reindex s (df_index df') in
  mkDataFrame (df_index df') (set_column name col (df_columns df')).

End Align.

End Pd.

(** ** datetime *)

(** A [datetime.datetime]; [utcoffset] is [None] for a naive value, the
    offset from UTC in minutes otherwise.  The class keeps
    [1 <= year <= 9999], [1 <= month <= 12] and [1 <= day <= 31]. *)
Record datetime : Type := mkDatetime {
  year : Z;
  month : Z;
  day : Z;
  hour : Z;
  minute : Z;
  second : Z;
  microsecond : Z;
  utcoffset : option Z
}.

Module Datetime.

Local Open Scope Z_scope.

Definition digit (n : Z) : ascii := ascii_of_N (48 + Z.to_N (n mod 10)).

(** [%m] and [%d]: two decimal digits. *)
Definition pad2 (n : Z) : string :=
  String (digit (n / 10)) (String (digit n) EmptyString).

(** Four decimal digits. *)
Definition pad4 (n : Z) : string :=
  String (digit (n / 1000)) (String (digit (n / 100)) (pad2 n)).

(** [%Y]: the decimal digits of the year, which the C library does not
    pad: four digits from the year 1000 on, [999] for the year 999. *)
Definition year_digits (n : Z) : string :=
  if n <? 10 then String (digit n) EmptyString
  else if n <? 100 then pad2 n
  else if n <? 1000 then String (digit (n / 100)) (pad2 n)
  else pad4 n.

(** [t.strftime('%Y-%m-%d')]. *)
Definition strftime_ymd (t : datetime) : string :=
  (year_digits (year t) +:+ "-" +:+ pad2 (month t) +:+ "-"
   +:+ pad2 (day t))%string.

(** Days from 1970-01-01 to the given day of the proleptic Gregorian
    calendar. *)
Definition days_from_civil (y m d : Z) : Z :=
  let y' := if m <=? 2 then y - 1 else y in
  let era := y' / 400 in
  let yoe := y' - era * 400 in
  let doy := (153 * (if 2 <? m then m - 3 else m + 9) + 2) / 5 + d - 1 in
  let doe := yoe * 365 + yoe / 4 - yoe / 100 + doy in
  era * 146097 + doe - 719468.

(** The instant of a [datetime], in nanoseconds since the epoch; a
    naive value is read as UTC. *)
Definition instant (t : datetime) : Z :=
  let minutes :=
    (days_from_civil (year t) (month t) (day t) * 24 + hour t) * 60
    + minute t - default 0 (utcoffset t) in
  ((minutes * 60 + second t) * 1000000 + microsecond t) * 1000.

End Datetime.

(** ** The remote service *)

(** What [requests.post(url)] returns: the body, and what [json.loads]
    makes of that body. *)
Record Response : Type := mkResponse {
  text : string;
  json_loads_text : answer pyval
}.

(** The program's view of the network: the answer to a POST of a URL, or
    the exception that [requests] raises. *)
Definition Remote : Type := string -> answer Response.

(** A computation that may POST and may raise; the state is the list of
    the URLs posted so far, oldest first. *)
Definition IO (A : Type) : Type := list string -> list string * result A.

#[global] Instance io_ret : MRet IO := fun A a log => (log, Ok a).
#[global] Instance io_bind : MBind IO := fun A B k m log =>
  match m log with
  | (log', Ok a) => k a log'
  | (log', Raise e) => (log', Raise e)
  end.

Definition lift {A} (r : result A) : IO A := fun log => (log, r).
Definition raise {A} (e : exn) : IO A := lift (Raise e).

Fixpoint rfold {A B} (f : B -> A -> result B) (b : B) (l : list A)
  : result B :=
  match l with
  | [] => Ok b
  | x :: l' => b' ← f b x; rfold f b' l'
  end.

(** ** scrape.py *)

(** [_format_usgs_lake_names(name)]: [name.split()[1].lower()].  The
    subscript raises [IndexError] when there are fewer than two tokens;
    a value that is not a [str] has no [split]. *)
Definition _format_usgs_lake_names (name : pyval) : result string :=
  match name with
  | PStr s =>
      match PyStr.split_whitespace s with
      | _ :: tok :: _ => Ok (PyStr.lower tok)
      | _ => Raise IndexError
      end
  | _ => Raise AttributeError
  end.

Definition lake_name_to_usgs_site_num : list (string * string) :=
  [ ("MENDOTA", "05428000");
    ("MONONA", "05429000");
    ("WAUBESA", "05429485");
    ("KEGONSA", "425715089164700") ].

Definition sites : string :=
  PyStr.join "," (map snd lake_name_to_usgs_site_num).

Definition base_url : string := "http://waterservices.usgs.gov/nwis/iv/?".
Definition base_datum_url : string :=
  "https://waterservices.usgs.gov/nwis/site/?".
Definition datum_url_args : string := "&sites=" +:+ sites +:+ "&format=rdb".

Definition newline : ascii := ascii_of_N 10.

Definition start_arg (start : option datetime) : string :=
  match start with
  | None => ""
  | Some s => "&startDT=" +:+ Datetime.strftime_ymd s
  end.

Definition end_arg (start end_ : option datetime) : result string :=
  match end_ with
  | None => Ok ""
  | Some e =>
      match start with
      | None => Raise (ValueError "If start is None, then end must be None too.")
      | Some _ => Ok ("&endDT=" +:+ Datetime.strftime_ymd e)
      end
  end.

Definition url_args (start_arg end_arg : string) : string :=
  "&sites=" +:+ sites +:+ "&format=json" +:+ start_arg +:+ end_arg.

(** The lines of the site response that the fetcher keeps. *)
Definition no_hash (text : string) : string :=
  PyStr.join (String newline EmptyString)
    (List.filter (fun l => negb (PyStr.startswith_char "#" l))
            (PyStr.split_char newline text)).

Section Scrape.

(** The library functions the fetcher calls: [float] on a [str],
    [pd.to_datetime(_, utc=True)] on one index label (the result in
    nanoseconds since the epoch), [pd.read_csv(_, delimiter='\t')],
    and the network. *)
Variable float_of_str : string -> answer spec_float.
Variable to_datetime : pyval -> answer Z.
Variable read_csv : string -> answer (DataFrame pyval pyval).
Variable remote : Remote.

Definition requests_post (url : string) : IO Response :=
  fun log => (log ++ [url], call (remote url)).

(** [float(x)]. *)
Definition py_float (x : pyval) : result spec_float :=
  match x with
  | PStr s => call (float_of_str s)
  | PFloat f => Ok f
  | PInt z =>
      let f := Float64.of_Z z in
      if Float64.is_infinite f then Raise OverflowError else Ok f
  | PBool b => Ok (Float64.of_Z (Py.Z_of_bool b))
  | _ => Raise TypeError
  end.

(** Line 65: the lake of a series. *)
Definition series_name (ts : pyval) : result string :=
  source_info ← Py.getitem ts "sourceInfo";
  site_name ← Py.getitem source_info "siteName";
  _format_usgs_lake_names site_name.

(** Line 66: the readings of a series. *)
Definition series_values (ts : pyval) : result (list pyval) :=
  vs ← Py.getitem ts "values";
  v0 ← Py.getitem0 vs;
  values ← Py.getitem v0 "value";
  Py.iter values.

Definition gage_height (v : pyval) : result spec_float :=
  x ← Py.getitem v "value"; py_float x.

Definition date_time (v : pyval) : result pyval := Py.getitem v "dateTime".

(** Lines 65 to 70, up to the assignment: the name of the column and
    the Series [pd.Series(dict(zip(times, gage_heights)))]. *)
Definition series_of (ts : pyval)
  : result (string * list (pyval * spec_float)) :=
  lake_name ← series_name ts;
  values ← series_values ts;
  gage_heights ← rmap gage_height values;
  times ← rmap date_time values;
  if negb (Nat.eqb (length times) (length gage_heights))
  then Raise AssertionError
  else
    series ← Py.dict (zip times gage_heights);
    Ok (lake_name, series).

(** The body of the loop over [d['value']['timeSeries']]. *)
Definition series_step (df : DataFrame pyval spec_float) (ts : pyval)
  : result (DataFrame pyval spec_float) :=
  '(lake_name, series) ← series_of ts;
  Ok (Pd.setitem Float64.nan df lake_name series).

Definition time_series_list (d : pyval) : result (list pyval) :=
  value ← Py.getitem d "value";
  time_series ← Py.getitem value "timeSeries";
  Py.iter time_series.

(** Lines 62 to 70: the frame of gage heights. *)
Definition time_series_frame (r : Response)
  : result (DataFrame pyval spec_float) :=
  d ← call (json_loads_text r);
  tss ← time_series_list d;
  rfold series_step Pd.empty tss.

(** [df[name] += datum_elevation]. *)
Definition add_datum (df : DataFrame pyval spec_float)
    (item : pyval * pyval) : result (DataFrame pyval spec_float) :=
  let (name, datum_elevation) := item in
  match name with
  | PStr n =>
      col ← Pd.getitem df n;
      e ← match datum_elevation with
          | PFloat f => Ok f
          | PInt z => Ok (Float64.of_Z z)
          | PBool b => Ok (Float64.of_Z (Py.Z_of_bool b))
          | _ => Raise TypeError
          end;
      Ok (Pd.setitem_own df n (map (fun x => Float64.add x e) col))
  | _ => Raise (KeyError name)
  end.

(** [df[name] = df[name].apply(f)]. *)
Definition apply_column (df : DataFrame pyval pyval) (name : string)
    (f : pyval -> result pyval) : result (DataFrame pyval pyval) :=
  col ← Pd.getitem df name;
  col' ← rmap f col;
  Ok (Pd.setitem_own df name col').

(** Lines 75 to 84: from the text of the site response to the frame of
    elevations indexed by lake name. *)
Definition site_datum (text : string) : result (DataFrame pyval pyval) :=
  datum ← call (read_csv (no_hash text));
  let datum := Pd.iloc_from1 datum in
  datum ← apply_column datum "station_nm"
            (fun x => PStr <$> _format_usgs_lake_names x);
  datum ← Pd.set_index datum "station_nm";
  apply_column datum "alt_va" (fun x => PFloat <$> py_float x).

(** Line 85: the pairs of lake name and elevation. *)
Definition datum_items (text : string) : result (list (pyval * pyval)) :=
  datum ← site_datum text;
  Pd.iteritems datum "alt_va".

(** Line 88: [df.index = pd.to_datetime(df.index, utc=True)]. *)
Definition to_utc (df : DataFrame pyval spec_float)
  : result (DataFrame Z spec_float) :=
  index ← rmap (fun l => call (to_datetime l)) (df_index df);
  Ok (mkDataFrame index (df_columns df)).

(** Lines 75 to 90. *)
Definition add_elevations (df : DataFrame pyval spec_float) (r : Response)
  : result (DataFrame Z spec_float) :=
  items ← datum_items (text r);
  df ← rfold add_datum df items;
  to_utc df.

Definition scrape (start end_ : option datetime)
  : IO (DataFrame Z spec_float) :=
  let start_arg := start_arg start in
  end_arg ← lift (end_arg start end_);
  r ← requests_post (base_url +:+ url_args start_arg end_arg);
  df ← lift (time_series_frame r);
  r ← requests_post (base_datum_url +:+ datum_url_args);
  lift (add_elevations df r).

(** *** What a response reports *)

(** The labels of the first series that has readings. *)
Definition first_labels (sers : list (string * list (pyval * spec_float)))
  : list pyval :=
  match List.filter (fun ns => negb (Nat.eqb (length (snd ns)) 0)) sers with
  | [] => []
  | ns :: _ => map fst (snd ns)
  end.

Definition row_labels (d : pyval) : result (list pyval) :=
  tss ← time_series_list d;
  sers ← rmap series_of tss;
  Ok (first_labels sers).

(** The last reading of the series [ts] at the time [t] has the gage
    height [g]. *)
Definition last_reading (ts : pyval) (t : string) (g : spec_float) : Prop :=
  exists pre v post,
    series_values ts = Ok (pre ++ v :: post)
    /\ date_time v = Ok (PStr t)
    /\ gage_height v = Ok g
    /\ Forall (fun v' => date_time v' <> Ok (PStr t)) post.

(** The document [d] reports the gage height [g] for [lake] at [t]:
    the last series of the lake has [g] in its last reading at [t]. *)
Definition reports_height (d : pyval) (lake t : string) (g : spec_float)
  : Prop :=
  exists before ts after,
    time_series_list d = Ok (before ++ ts :: after)
    /\ series_name ts = Ok lake
    /\ Forall (fun ts' => series_name ts' <> Ok lake) after
    /\ last_reading ts t g.

(** The site response reports the elevation [e] for [lake], in the one
    row it has for the lake. *)
Definition reports_datum (text : string) (lake : string) (e : spec_float)
  : Prop :=
  exists before after,
    datum_items text = Ok (before ++ (PStr lake, PFloat e) :: after)
    /\ Forall (fun item => fst item <> PStr lake) (before ++ after).

End Scrape.

(** The value of a table in the column [name], in a row of the index
    [label]. *)
Definition value_at {L V} (df : DataFrame L V) (name : string) (label : L)
    (x : V) : Prop :=
  exists i : nat, df_index df !! i = Some label /\ Pd.cell df name i = Some x.

(** The frame that the loop over the series builds from the Series of
    each. *)
Definition frame_step (df : DataFrame pyval spec_float)
    (ns : string * list (pyval * spec_float)) : DataFrame pyval spec_float :=
  Pd.setitem Float64.nan df (fst ns) (snd ns).

Definition frame_of (sers : list (string * list (pyval * spec_float)))
  : DataFrame pyval spec_float :=
  foldl frame_step Pd.empty sers.

(** The frame [df] holds the Series [s] in the column [lake]: in each
    row with a string label, the value of [s] at the label, or NaN. *)
Definition holds_series (lake : string) (s : list (pyval * spec_float))
    (df : DataFrame pyval spec_float) : Prop :=
  (df_index df = [] -> s = [])
  /\ is_Some (Py.assoc lake (df_columns df))
  /\ (forall i t,
        df_index df !! i = Some (PStr t) ->
        Pd.cell df lake i
        = Some (default Float64.nan (Py.dict_get (PStr t) s))).

Definition invalid_argument : exn :=
  ValueError "If start is None, then end must be None too.".

Definition time_series_url (start_arg end_arg : string) : string :=
  base_url +:+ url_args start_arg end_arg.

Definition site_url : string := base_datum_url +:+ datum_url_args.

Definition never_asserts {A} (r : result A) : Prop := r <> Raise AssertionError.

(** The words of the specification: the white-space separated tokens of
    a string are its maximal runs of characters that are not white
    space.  [whitespace_tokens s toks] cuts [s] into white space, a
    token, and what follows the token. *)
Definition at_boundary (rest : string) : Prop :=
  match rest with
  | EmptyString => True
  | String c _ => PyStr.isspace c = true
  end.

Inductive whitespace_tokens : string -> list string -> Prop :=
| tokens_done ws :
    PyStr.all_chars PyStr.isspace ws = true ->
    whitespace_tokens ws []
| tokens_next ws tok rest toks :
    PyStr.all_chars PyStr.isspace ws = true ->
    tok <> "" ->
    PyStr.all_chars (fun c => negb (PyStr.isspace c)) tok = true ->
    at_boundary rest ->
    whitespace_tokens rest toks ->
    whitespace_tokens (ws +:+ tok +:+ rest) (tok :: toks).

(** [n] is the second white-space separated token of the display name
    [s], lower-cased. *)
Definition second_token_lowered (s n : string) : Prop :=
  exists toks tok,
    whitespace_tokens s toks /\ toks !! 1%nat = Some tok
    /\ n = PyStr.lower tok.

(** The display name of the site of a series,
    [ts['sourceInfo']['siteName']] of line 65. *)
Definition site_name (ts : pyval) : result pyval :=
  source_info ← Py.getitem ts "sourceInfo";
  Py.getitem source_info "siteName".

Definition without_char (c : ascii) (s : string) : bool :=
  PyStr.all_chars (fun c' => negb (Ascii.eqb c' c)) s.


(** ** Reference library functions

    Executable stand-ins for the library functions that [scrape] takes as
    parameters, on the inputs the USGS service produces.  The theorems
    below hold for every choice of the parameters; these instances run
    the fetcher on concrete responses. *)

Module Ref.

Local Open Scope Z_scope.

Definition digit_value (c : ascii) : option Z :=
  let n := Z.of_N (N_of_ascii c) in
  if (48 <=? n) && (n <=? 57) then Some (n - 48) else None.

(** Read the decimal digits at the head of [s]: the number they extend
    [acc] to, how many there are, and what follows them. *)
Fixpoint read_digits (s : string) (acc : Z) (count : nat)
  : Z * nat * string :=
  match s with
  | EmptyString => (acc, count, s)
  | String c s' =>
      match digit_value c with
      | Some d => read_digits s' (10 * acc + d) (S count)
      | None => (acc, count, s)
      end
  end.

Fixpoint lstrip (s : string) : string :=
  match s with
  | String c s' => if PyStr.isspace c then lstrip s' else s
  | EmptyString => s
  end.

Fixpoint rstrip (s : string) : string :=
  match s with
  | EmptyString => EmptyString
  | String c s' =>
      match rstrip s' with
      | EmptyString =>
          if PyStr.isspace c then EmptyString else String c EmptyString
      | r => String c r
      end
  end.

(** The float nearest to [n / 10^k], ties to even, for [0 <= n]: the
    quotient is taken with 64 bits to spare and a sticky last bit. *)
Definition float_of_ratio (neg : bool) (n : Z) (k : nat) : spec_float :=
  if n =? 0 then S754_zero neg
  else
    let d := 10 ^ Z.of_nat k in
    let s := 64 + Z.log2_up d in
    let q := (n * 2 ^ s) / d in
    let sticky := if (n * 2 ^ s) mod d =? 0 then 0 else 1 in
    let m := 2 * q + sticky in
    binary_normalize Float64.prec Float64.emax
      (if neg then - m else m) (- (s + 1)) neg.

Definition not_a_float {A} : answer A :=
  Fails "ValueError: could not convert string to float".

(** [float(s)] for a decimal literal with an optional sign and an
    optional fraction, white space around it allowed.  Exponents,
    underscores, [inf] and [nan] are left out: they raise here. *)
Definition float_of_str (s : string) : answer spec_float :=
  let s := rstrip (lstrip s) in
  let (neg, s) :=
    match s with
    | String "-" s' => (true, s')
    | String "+" s' => (false, s')
    | _ => (false, s)
    end in
  let '(n, ki, rest) := read_digits s 0 0%nat in
  match rest with
  | EmptyString =>
      if Nat.eqb ki 0 then not_a_float else Returns (float_of_ratio neg n 0)
  | String "." rest' =>
      let '(n', kf, rest'') := read_digits rest' n 0%nat in
      match rest'' with
      | EmptyString =>
          if Nat.eqb (ki + kf) 0 then not_a_float
          else Returns (float_of_ratio neg n' kf)
      | _ => not_a_float
      end
  | _ => not_a_float
  end.

Definition two_digits (a b : ascii) : option Z :=
  x ← digit_value a; y ← digit_value b; Some (10 * x + y).

Definition bad_timestamp {A} : answer A :=
  Fails "ValueError: unknown timestamp format".

(** [pd.to_datetime(label, utc=True)] for the timestamps of the
    service, [YYYY-MM-DDTHH:MM:SS.mmm+HH:MM]; every other label raises
    here. *)
Definition to_datetime (label : pyval) : answer Z :=
  match label with
  | PStr s =>
      match list_ascii_of_string s with
      | [y1; y2; y3; y4; "-"; m1; m2; "-"; d1; d2; "T"; h1; h2; ":";
         i1; i2; ":"; s1; s2; "."; f1; f2; f3; sg; o1; o2; ":"; o3; o4]%char =>
          let fields :=
            yh ← two_digits y1 y2; yl ← two_digits y3 y4;
            mo ← two_digits m1 m2; dd ← two_digits d1 d2;
            hh ← two_digits h1 h2; mi ← two_digits i1 i2;
            ss ← two_digits s1 s2;
            fh ← digit_value f1; fl ← two_digits f2 f3;
            oh ← two_digits o1 o2; om ← two_digits o3 o4;
            sign ← (if Ascii.eqb sg "+" then Some 1
                    else if Ascii.eqb sg "-" then Some (-1) else None);
            if (1 <=? mo) && (mo <=? 12) && (1 <=? dd) && (dd <=? 31)
               && (hh <? 24) && (mi <? 60) && (ss <? 60) && (om <? 60)
            then Some (mkDatetime (100 * yh + yl) mo dd hh mi ss
                         ((100 * fh + fl) * 1000)
                         (Some (sign * (60 * oh + om))))
            else None in
          match fields with
          | Some t => Returns (Datetime.instant t)
          | None => bad_timestamp
          end
      | _ => bad_timestamp
      end
  | _ => bad_timestamp
  end.

Definition tab : ascii := ascii_of_N 9.
Definition carriage_return : ascii := ascii_of_N 13.

(** The strings that [read_csv] reads as a missing value. *)
Definition na_values : list string :=
  [ ""; "#N/A"; "#N/A N/A"; "#NA"; "-1.#IND"; "-1.#QNAN"; "-NaN"; "-nan";
    "1.#IND"; "1.#QNAN"; "<NA>"; "N/A"; "NA"; "NULL"; "NaN"; "n/a";
    "nan"; "null" ]%string.

Definition cell (field : string) : pyval :=
  if existsb (String.eqb field) na_values then PFloat Float64.nan
  else PStr field.

(** The records of the text: its lines, ended by a line feed or a
    carriage return, without the lines that are empty or all spaces. *)
Definition records (text : string) : list string :=
  List.filter (fun l => negb (PyStr.all_chars (Ascii.eqb " ") l))
    (concat (map (PyStr.split_char carriage_return)
                 (PyStr.split_char newline text))).

Fixpoint pad_row (width : nat) (fields : list pyval) : list pyval :=
  match width with
  | O => []
  | S w =>
      match fields with
      | [] => PFloat Float64.nan :: pad_row w []
      | f :: fs => f :: pad_row w fs
      end
  end.

Fixpoint columns_of (names : list string) (rows : list (list pyval))
  : list (string * list pyval) :=
  match names with
  | [] => []
  | n :: names' =>
      (n, map (fun r => List.hd PNone r) rows)
      :: columns_of names' (map (@List.tl pyval) rows)
  end.

(** [pd.read_csv(io.StringIO(text), delimiter='\t')] for text without
    quoted fields: the first record names the columns, a shorter row is
    filled with missing values, a longer one is an error.  Every column
    is kept as text (pandas converts a column in which every cell is a
    number, which the format row of the service rules out), and the
    rows are numbered from 0. *)
Definition parse_row (width : nat) (line : string)
  : answer (list pyval) :=
  let fields := PyStr.split_char tab line in
  if (width <? length fields)%nat
  then Fails "ParserError: too many fields"
  else Returns (pad_row width (map cell fields)).

Fixpoint parse_rows (width : nat) (lines : list string)
  : answer (list (list pyval)) :=
  match lines with
  | [] => Returns []
  | line :: lines' =>
      match parse_row width line with
      | Fails what => Fails what
      | Returns row =>
          match parse_rows width lines' with
          | Fails what => Fails what
          | Returns rows => Returns (row :: rows)
          end
      end
  end.

Definition read_csv (text : string) : answer (DataFrame pyval pyval) :=
  match records text with
  | [] => Fails "EmptyDataError: no columns to parse"
  | header :: lines =>
      let names := PyStr.split_char tab header in
      match parse_rows (length names) lines with
      | Fails what => Fails what
      | Returns rows =>
          Returns (mkDataFrame
                     (map (fun i => PInt (Z.of_nat i)) (seq 0 (length rows)))
                     (columns_of names rows))
      end
  end.

(** The fetcher over the reference library. *)
Definition scrape (remote : Remote) (start end_ : option datetime)
  : list string * result (DataFrame Z spec_float) :=
  scrape float_of_str to_datetime read_csv remote start end_ [].

End Ref.

(** ** Sample responses *)

Module Sample.

Definition quote : string := String (ascii_of_N 34) EmptyString.

(** [json.dumps] for documents of strings, lists and dicts, the strings
    free of quotes, backslashes and control characters. *)
Fixpoint dumps (x : pyval) : string :=
  match x with
  | PNone => "null"
  | PBool true => "true"
  | PBool false => "false"
  | PInt z => NilZero.string_of_int (Z.to_int z)
  | PFloat _ => "NaN"
  | PStr s => quote +:+ s +:+ quote
  | PList l => "[" +:+ PyStr.join ", " (map dumps l) +:+ "]"
  | PDict items =>
      "{" +:+ PyStr.join ", "
                (map (fun kv => quote +:+ fst kv +:+ quote +:+ ": "
                                +:+ dumps (snd kv)) items)
      +:+ "}"
  end.

(** One sample of a series: [{"value": v, "dateTime": t}]. *)
Definition reading (v t : string) : pyval :=
  PDict [("value", PStr v); ("dateTime", PStr t)].

(** One series of the time-series document. *)
Definition time_series (site_name : string) (readings : list pyval)
  : pyval :=
  PDict [ ("sourceInfo", PDict [("siteName", PStr site_name)]);
          ("values", PList [PDict [("value", PList readings)]]) ].

Definition document (series : list pyval) : pyval :=
  PDict [("value", PDict [("timeSeries", PList series)])].

Definition json_response (doc : pyval) : Response :=
  mkResponse (dumps doc) (Returns doc).

(** A response in the RDB format of the site service: comment lines,
    the header, the format row, one row per site. *)
Definition rdb (rows : list string) : string :=
  PyStr.join (String newline EmptyString)
    ([ "#"; "# US Geological Survey";
       PyStr.join (String Ref.tab EmptyString)
         ["agency_cd"; "site_no"; "station_nm"; "alt_va"];
       PyStr.join (String Ref.tab EmptyString) ["5s"; "15s"; "50s"; "8s"] ]
     ++ rows ++ [""]).

Definition site_row (site_no station_nm alt_va : string) : string :=
  PyStr.join (String Ref.tab EmptyString)
    ["USGS"; site_no; station_nm; alt_va].

Definition four_sites : string :=
  rdb [ site_row "05428000" "LAKE MENDOTA AT MADISON, WI" " 840.00";
        site_row "05429000" "LAKE MONONA AT MADISON, WI" " 840.00";
        site_row "05429485" "LAKE WAUBESA AT MCFARLAND, WI" " 840.00";
        site_row "425715089164700" "LAKE KEGONSA AT BARBER DRIVE NEAR STOUGHTON,WI"
                 " 830.00" ].

(** A remote that answers the time-series endpoint with [doc] and the
    site endpoint with [site_text], whatever the query. *)
Definition serve (doc : pyval) (site_text : string) : Remote :=
  fun url =>
    if String.prefix base_url url then Returns (json_response doc)
    else if String.prefix base_datum_url url
         then Returns (mkResponse site_text
                         (Fails "JSONDecodeError: Expecting value"))
         else Fails "ConnectionError".

Definition t0 : string := "2018-10-01T00:00:00.000-05:00".
Definition t1 : string := "2018-10-01T00:15:00.000-05:00".

Definition four_lakes : pyval :=
  document
    [ time_series "LAKE MENDOTA AT MADISON, WI"
        [reading "9.52" t0; reading "9.53" t1];
      time_series "LAKE MONONA AT MADISON, WI"
        [reading "5.25" t0; reading "5.26" t1];
      time_series "LAKE WAUBESA AT MCFARLAND, WI"
        [reading "4.75" t0; reading "4.76" t1];
      time_series "LAKE KEGONSA AT BARBER DRIVE NEAR STOUGHTON,WI"
        [reading "13.5" t0; reading "13.51" t1] ].

(** Two lakes whose series differ: Monona has a reading at [t1],
    Mendota, the first series, has none. *)
Definition uneven_lakes : pyval :=
  document
    [ time_series "LAKE MENDOTA AT MADISON, WI" [reading "9.52" t0];
      time_series "LAKE MONONA AT MADISON, WI"
        [reading "5.25" t0; reading "5.26" t1] ].

Definition two_sites : string :=
  rdb [ site_row "05428000" "LAKE MENDOTA AT MADISON, WI" " 840.00";
        site_row "05429000" "LAKE MONONA AT MADISON, WI" " 840.00" ].

(** The floats of the literals [5.26] and [840.00], and the instant of
    [t1], 2018-10-01T05:15:00Z. *)
Definition height_5_26 : spec_float := Ref.float_of_ratio false 526 2.
Definition elevation_840 : spec_float := Ref.float_of_ratio false 84000 2.
Definition instant_t0 : Z := 1538370000000000000.
Definition instant_t1 : Z := 1538370900000000000.

(** The first day of the year 999, [datetime(999, 1, 1)]. *)
Definition year_999 : datetime := mkDatetime 999 1 1 0 0 0 0 None.

(** Noon of 2018-10-01 and of 2018-10-02, UTC. *)
Definition noon_oct_1 : datetime := mkDatetime 2018 10 1 12 0 0 0 (Some 0%Z).
Definition noon_oct_2 : datetime := mkDatetime 2018 10 2 12 0 0 0 (Some 0%Z).

End Sample.

(** ** The store *)

Module Store.

(** One row of a table of levels, as [tests/test_db.py] builds it:
    the instant (nanoseconds since the epoch) and the four heights. *)
Record Row : Type := mkRow {
  timestamp : Z;
  mendota : spec_float;
  monona : spec_float;
  waubesa : spec_float;
  kegonsa : spec_float
}.

(** Modelled from the spec: the module [db] with the class
    [LakeLevelDB], which [tests/test_db.py] imports, is not among the
    sources.  What becomes of the rows of a failed [insert] that came
    before the rejected one is left to the implementation: both
    choices are modelled. *)
Inductive on_failure : Type := KeepEarlierRows | RollBack.

(** Modelled from the spec: [LakeLevelDB(path)], missing with [db].
    A database file holds the one table [levels], its rows in the
    order of insertion; [files] maps the path of each existing file to
    that table.  Opening creates the file with an empty table when
    there is none and leaves an existing one as it is. *)
Definition open (path : string) (files : gmap string (list Row))
  : gmap string (list Row) :=
  match files !! path with
  | Some _ => files
  | None => <[path := []]> files
  end.

(** Modelled from the spec: the rows of [levels] in the file at
    [path], what [SELECT * FROM levels] returns; missing with [db]. *)
Definition levels (path : string) (files : gmap string (list Row))
  : list Row :=
  default [] (files !! path).

(** Modelled from the spec: the loop of [insert], missing with [db]:
    the rows are added one by one, and the first row whose timestamp
    the table already has is a uniqueness violation. *)
Fixpoint insert_rows (table : list Row) (stored : list Row)
  : list Row * result unit :=
  match table with
  | [] => (stored, Ok tt)
  | row :: table' =>
      if decide (timestamp row ∈ map timestamp stored)
      then (stored, Raise IntegrityError)
      else insert_rows table' (stored ++ [row])
  end.

(** Modelled from the spec: [LakeLevelDB.insert], missing with [db]. *)
Definition insert (policy : on_failure) (path : string) (table : list Row)
    (files : gmap string (list Row))
  : gmap string (list Row) * result unit :=
  let stored := levels path files in
  match insert_rows table stored with
  | (stored', Ok u) => (<[path := stored']> files, Ok u)
  | (stored', Raise e) =>
      match policy with
      | KeepEarlierRows => (<[path := stored']> files, Raise e)
      | RollBack => (files, Raise e)
      end
  end.

(** Modelled from the spec: [LakeLevelDB.to_df], missing with [db]:
    all the rows, in the order of the storage. *)
Definition to_table (path : string) (files : gmap string (list Row))
  : list Row :=
  levels path files.

(** The row of [tests/test_db.py], 2018-10-01T00:00 with the heights
    0.0, 1.0, 2.0 and 3.0. *)
Definition example_df : list Row :=
  [ mkRow 1538352000000000000
      (Float64.of_Z 0) (Float64.of_Z 1) (Float64.of_Z 2) (Float64.of_Z 3) ].

End Store.

(** ** Reading a request back

    What a server reads in the URL of a request: the part up to the
    question mark, the parameters after it, and the date in a parameter
    written as [YYYY-MM-DD]. *)

Module Url.

Fixpoint base (url : string) : string :=
  match url with
  | EmptyString => EmptyString
  | String c url' =>
      if Ascii.eqb c "?" then String c EmptyString else String c (base url')
  end.

Fixpoint query (url : string) : string :=
  match url with
  | EmptyString => EmptyString
  | String c url' => if Ascii.eqb c "?" then url' else query url'
  end.

(** [name=value], cut at the first equals sign. *)
Fixpoint name_value (p : string) : string * string :=
  match p with
  | EmptyString => (EmptyString, EmptyString)
  | String c p' =>
      if Ascii.eqb c "=" then (EmptyString, p')
      else let (n, v) := name_value p' in (String c n, v)
  end.

Definition params (url : string) : list (string * string) :=
  map name_value
    (List.filter (fun p => negb (String.eqb p "")) (PyStr.split_char "&" (query url))).

(** The year, month and day that a string of the form [YYYY-MM-DD]
    denotes. *)
Definition date_of_ymd (s : string) : option (Z * Z * Z) :=
  match list_ascii_of_string s with
  | [y1; y2; y3; y4; "-"; m1; m2; "-"; d1; d2]%char =>
      yh ← Ref.two_digits y1 y2; yl ← Ref.two_digits y3 y4;
      m ← Ref.two_digits m1 m2; d ← Ref.two_digits d1 d2;
      Some ((100 * yh + yl)%Z, m, d)
  | _ => None
  end.

End Url.

(** The dates of a [datetime] whose year has four digits. *)
Definition valid_date (t : datetime) : Prop :=
  (1000 <= year t <= 9999 /\ 1 <= month t <= 12 /\ 1 <= day t <= 31)%Z.

Definition date_fields (t : datetime) : Z * Z * Z := (year t, month t, day t).

(** The date parameters that a request for [start] and [end] is to
    carry, each with the date it is to denote. *)
Definition expected_dates (start end_ : option datetime)
  : list (string * option (Z * Z * Z)) :=
  match start with
  | None => []
  | Some s =>
      ("startDT", Some (date_fields s))
      :: match end_ with
         | None => []
         | Some e => [("endDT", Some (date_fields e))]
         end
  end.

(** ** A service that is out of order *)

Module Outage.

(** No request is answered. *)
Definition down : Remote := fun _ => Fails "ConnectionError".

(** The time-series service answers with a body that is not JSON. *)
Definition garbled : Remote :=
  fun _ => Returns (mkResponse "<html>" (Fails "JSONDecodeError")).

(** The time-series service answers with [doc]; the site service does
    not answer. *)
Definition site_down (doc : pyval) : Remote :=
  fun url =>
    if String.prefix base_url url then Returns (Sample.json_response doc)
    else Fails "ConnectionError".

End Outage.

(** ** More sample responses *)

Module Cases.

(** Mendota alone has a series. *)
Definition only_mendota : pyval :=
  Sample.document
    [ Sample.time_series "LAKE MENDOTA AT MADISON, WI"
        [Sample.reading "9.52" Sample.t0] ].

(** Monona has no reading at [t1], Mendota, the first series, has. *)
Definition monona_short : pyval :=
  Sample.document
    [ Sample.time_series "LAKE MENDOTA AT MADISON, WI"
        [Sample.reading "9.52" Sample.t0; Sample.reading "9.53" Sample.t1];
      Sample.time_series "LAKE MONONA AT MADISON, WI"
        [Sample.reading "5.25" Sample.t0] ].

(** A site response with two rows for Lake Mendota. *)
Definition mendota_twice : string :=
  Sample.rdb
    [ Sample.site_row "05428000" "LAKE MENDOTA AT MADISON, WI" " 840.00";
      Sample.site_row "05427965" "LAKE MENDOTA NEAR MIDDLETON, WI" " 1.50" ].

Definition height_9_52 : spec_float := Ref.float_of_ratio false 952 2.
Definition elevation_1_5 : spec_float := Ref.float_of_ratio false 150 2.

End Cases.

(** ** What the table of a call looks like *)

(** A lake name as [_format_usgs_lake_names] returns it: not empty,
    without white space, and left as it is by [lower]. *)
Definition lake_name_shape (n : string) : Prop :=
  n <> ""
  /\ PyStr.all_chars (fun c => negb (PyStr.isspace c)) n = true
  /\ PyStr.lower n = n.

(** The float that [df[name] += x] adds for the value [x]. *)
Definition as_float (x : pyval) : option spec_float :=
  match x with
  | PFloat f => Some f
  | PInt z => Some (Float64.of_Z z)
  | PBool b => Some (Float64.of_Z (Py.Z_of_bool b))
  | _ => None
  end.

(** The elevations that the items of the site response have for a
    lake, in their order. *)
Definition elevations_of (lake : string) (items : list (pyval * pyval))
  : list spec_float :=
  omap (fun item =>
          match fst item with
          | PStr n => if String.eqb n lake then as_float (snd item) else None
          | _ => None
          end) items.

(** Every column has one value for each row. *)
Definition well_shaped {L V} (df : DataFrame L V) : Prop :=
  Forall (fun nc => length (snd nc) = length (df_index df)) (df_columns df).

(** The names of a list, each at its first place. *)
Definition append_new (names : list string) (n : string) : list string :=
  if decide (n ∈ names) then names else names ++ [n].

Definition first_occurrences (names : list string) : list string :=
  foldl append_new [] names.

(** ** tests/test_db.py *)

Module TestDB.

(** The errors, other than [FileNotFoundError], with which the
    operating system refuses to unlink a path: the path is a directory,
    the directory that holds it may not be written, and the other
    errors of the system call, by number. *)
Inductive os_error : Type :=
| IsADirectoryError
| PermissionError
| OSError (errno : Z).

Definition os_error_name (e : os_error) : string :=
  match e with
  | IsADirectoryError => "IsADirectoryError"
  | PermissionError => "PermissionError"
  | OSError _ => "OSError"
  end.

(** [Path.unlink()], with the answer [refused] of the operating system
    when it does not let the path be unlinked: that error is raised
    and nothing is removed.  Otherwise the file is removed; a path
    without a file raises [FileNotFoundError]. *)
Definition unlink (refused : option os_error) (path : string)
    (files : gmap string (list Store.Row))
  : gmap string (list Store.Row) * result unit :=
  match refused with
  | Some e => (files, Raise (LibraryError (os_error_name e)))
  | None =>
      match files !! path with
      | Some _ => (delete path files, Ok tt)
      | None => (files, Raise (LibraryError "FileNotFoundError"))
      end
  end.

(** [_delete_test_db_file]: [unlink] under
    [try: ... except FileNotFoundError: pass]; any other error is not
    caught. *)
Definition _delete_test_db_file (refused : option os_error) (path : string)
    (files : gmap string (list Store.Row))
  : gmap string (list Store.Row) * result unit :=
  match unlink refused path files with
  | (files', Raise (LibraryError what)) =>
      if String.eqb what "FileNotFoundError" then (files', Ok tt)
      else (files', Raise (LibraryError what))
  | outcome => outcome
  end.

Definition setup_method := _delete_test_db_file.
Definition teardown_method := _delete_test_db_file.

(** [df.values] of a table of levels: the four heights of each row. *)
Definition values (table : list Store.Row) : list (list spec_float) :=
  map (fun r => [Store.mendota r; Store.monona r; Store.waubesa r;
                 Store.kegonsa r]) table.

Fixpoint row_equal (a b : list spec_float) : bool :=
  match a, b with
  | [], [] => true
  | x :: a', y :: b' => Float64.eqb x y && row_equal a' b'
  | _, _ => false
  end.

(** [(out.values == example.values).all()] of line 45, for an [example]
    of one row: the row is compared, value by value with [==] of
    floats, with each row of [out]. *)
Definition values_all_equal (out : list Store.Row) (example : Store.Row)
  : bool :=
  forallb (fun r => row_equal r (List.hd [] (values [example]))) (values out).

(** Modelled from the spec: the store that [test_to_df] exercises is
    that of [Store], [db] being missing.  The body of the test runs
    when [setup_method] has returned, so on a file system as
    [setup_method] leaves it when the unlink is not refused: open,
    insert the example, read back, compare; [true] when the assertion
    holds. *)
Definition test_to_df (policy : Store.on_failure) (path : string)
    (example : Store.Row) (files : gmap string (list Store.Row)) : bool :=
  let files := fst (setup_method None path files) in
  let files := Store.open path files in
  match Store.insert policy path [example] files with
  | (files, Ok _) => values_all_equal (Store.to_table path files) example
  | (_, Raise _) => false
  end.

End TestDB.

(** * Properties *)

(** ** Results and their combinators *)

Lemma bind_Ok {A B} (r : result A) (k : A -> result B) (b : B) :
  r ≫= k = Ok b -> exists a, r = Ok a /\ k a = Ok b.
Proof. destruct r as [a|e]; [eauto | discriminate]. Qed.

Lemma rmap_length {A B} (f : A -> result B) (l : list A) (l' : list B) :
  rmap f l = Ok l' -> length l' = length l.
Proof.
  revert l'. induction l as [|x l IH]; intros l' H; simpl in H.
  - by inversion H.
  - apply bind_Ok in H as (y & _ & H).
    apply bind_Ok in H as (ys & Hys & H).
    inversion H; subst. simpl. f_equal. by apply IH.
Qed.

(** ** Strings *)

Lemma append_empty_r (s : string) : s +:+ "" = s.
Proof. induction s as [|c s IH]; simpl; [done | by f_equal]. Qed.

Lemma append_assoc (s t u : string) : (s +:+ t) +:+ u = s +:+ (t +:+ u).
Proof. induction s as [|c s IH]; simpl; [done | by f_equal]. Qed.

(** ** Lake names *)

Lemma split_scan_skip ws s :
  PyStr.all_chars PyStr.isspace ws = true ->
  PyStr.split_scan None (ws +:+ s) = PyStr.split_scan None s.
Proof.
  induction ws as [|c ws IH]; simpl; [done |].
  intros [Hc Hws]%andb_prop. rewrite Hc. by apply IH.
Qed.

Lemma split_scan_token t tok rest :
  PyStr.all_chars (fun c => negb (PyStr.isspace c)) tok = true ->
  at_boundary rest ->
  PyStr.split_scan (Some t) (tok +:+ rest)
  = (t +:+ tok) :: PyStr.split_scan None rest.
Proof.
  revert t. induction tok as [|c tok IH]; intros t; simpl.
  - intros _ Hrest. rewrite append_empty_r.
    destruct rest as [|c rest]; simpl; [done |].
    simpl in Hrest. by rewrite Hrest.
  - intros [Hc Htok]%andb_prop Hrest.
    apply negb_true_iff in Hc. rewrite Hc, IH by done.
    by rewrite append_assoc.
Qed.

Lemma split_whitespace_tokens s toks :
  whitespace_tokens s toks -> PyStr.split_whitespace s = toks.
Proof.
  unfold PyStr.split_whitespace.
  induction 1 as [ws Hws | ws tok rest toks Hws Hne Htok Hrest _ IH].
  - rewrite <- (append_empty_r ws). by rewrite split_scan_skip.
  - rewrite split_scan_skip by done.
    destruct tok as [|c tok]; [done |]. simpl in *.
    apply andb_prop in Htok as [Hc Htok].
    rewrite (proj1 (negb_true_iff _) Hc).
    rewrite split_scan_token by done. simpl. by rewrite IH.
Qed.

(** X16. On a string, [_format_usgs_lake_names] returns the second
    white-space separated token of the string, lower-cased; a string
    with fewer than two tokens has none, and the subscript raises
    [IndexError]. *)
Theorem format_name_second_token (name : string) (toks : list string) :
  whitespace_tokens name toks ->
  _format_usgs_lake_names (PStr name)
  = match toks !! 1%nat with
    | Some tok => Ok (PyStr.lower tok)
    | None => Raise IndexError
    end.
Proof.
  intros H. simpl. rewrite (split_whitespace_tokens _ _ H).
  by destruct toks as [|? [|? ?]].
Qed.

Lemma format_name_second_token_witness :
  whitespace_tokens "LAKE MENDOTA AT MADISON, WI"
    ["LAKE"; "MENDOTA"; "AT"; "MADISON,"; "WI"]
  /\ _format_usgs_lake_names (PStr "LAKE MENDOTA AT MADISON, WI")
     = Ok "mendota".
Proof.
  assert (H : whitespace_tokens "LAKE MENDOTA AT MADISON, WI"
                ["LAKE"; "MENDOTA"; "AT"; "MADISON,"; "WI"]).
  { apply (tokens_next "" "LAKE" " MENDOTA AT MADISON, WI"); try done.
    apply (tokens_next " " "MENDOTA" " AT MADISON, WI"); try done.
    apply (tokens_next " " "AT" " MADISON, WI"); try done.
    apply (tokens_next " " "MADISON," " WI"); try done.
    apply (tokens_next " " "WI" ""); try done.
    by apply (tokens_done ""). }
  split; [exact H |].
  exact (format_name_second_token _ _ H).
Defined.

(** ** No exception but the one named: the [assert] *)

Create HintDb asserts.

Lemma never_asserts_Ok {A} (a : A) : never_asserts (Ok a).
Proof. discriminate. Qed.

Lemma never_asserts_call {A} (r : answer A) : never_asserts (call r).
Proof. destruct r; discriminate. Qed.

Lemma never_asserts_bind {A B} (r : result A) (k : A -> result B) :
  never_asserts r -> (forall a, never_asserts (k a)) -> never_asserts (r ≫= k).
Proof.
  destruct r as [a|e]; intros Hr Hk; [apply Hk |].
  intros [=]. by apply Hr; f_equal.
Qed.

Lemma never_asserts_fmap {A B} (f : A -> B) (r : result A) :
  never_asserts r -> never_asserts (f <$> r).
Proof.
  destruct r as [a|e]; intros Hr; [discriminate |].
  intros [=]. by apply Hr; f_equal.
Qed.

Lemma never_asserts_rmap {A B} (f : A -> result B) (l : list A) :
  (forall x, never_asserts (f x)) -> never_asserts (rmap f l).
Proof.
  intros Hf. induction l as [|x l IH]; simpl.
  - discriminate.
  - apply never_asserts_bind; [apply Hf | intros y].
    apply never_asserts_bind; [apply IH | discriminate].
Qed.

Lemma never_asserts_rfold {A B} (f : B -> A -> result B) (l : list A) (b : B) :
  (forall b x, never_asserts (f b x)) -> never_asserts (rfold f b l).
Proof.
  intros Hf. revert b. induction l as [|x l IH]; intros b; simpl.
  - discriminate.
  - apply never_asserts_bind; [apply Hf | intros b'; apply IH].
Qed.

Lemma never_asserts_getitem x key : never_asserts (Py.getitem x key).
Proof.
  destruct x; try discriminate. simpl.
  destruct (Py.assoc key items); discriminate.
Qed.

Lemma never_asserts_getitem0 x : never_asserts (Py.getitem0 x).
Proof. destruct x as [| | | |[|c s]|[|v l]|]; discriminate. Qed.

Lemma never_asserts_iter x : never_asserts (Py.iter x).
Proof. destruct x; discriminate. Qed.

Lemma never_asserts_format x : never_asserts (_format_usgs_lake_names x).
Proof.
  destruct x; try discriminate. simpl.
  destruct (PyStr.split_whitespace s) as [|? [|? ?]]; discriminate.
Qed.

Lemma never_asserts_dict_update {V} (pairs d : list (pyval * V)) :
  never_asserts (Py.dict_update d pairs).
Proof.
  revert d. induction pairs as [|[k v] pairs IH]; intros d; simpl.
  - discriminate.
  - destruct (Py.hashable k); [apply IH | discriminate].
Qed.

Lemma never_asserts_pd_getitem {L V} (df : DataFrame L V) name :
  never_asserts (Pd.getitem df name).
Proof. unfold Pd.getitem. destruct (Py.assoc name (df_columns df)); discriminate. Qed.

#[global] Hint Resolve never_asserts_Ok never_asserts_call never_asserts_fmap
  never_asserts_getitem never_asserts_getitem0 never_asserts_iter
  never_asserts_format never_asserts_dict_update never_asserts_pd_getitem
  : asserts.

Ltac asserts_step :=
  first
    [ solve [auto with asserts]
    | discriminate
    | apply never_asserts_bind; [| intros ?]
    | apply never_asserts_rmap; intros ?
    | apply never_asserts_rfold; intros ? ? ].

Section ScrapeProperties.

Variable float_of_str : string -> answer spec_float.
Variable to_datetime : pyval -> answer Z.
Variable read_csv : string -> answer (DataFrame pyval pyval).
Variable remote : Remote.

Local Abbreviation py_float := (py_float float_of_str).
Local Abbreviation gage_height := (gage_height float_of_str).
Local Abbreviation series_of := (series_of float_of_str).
Local Abbreviation series_step := (series_step float_of_str).
Local Abbreviation time_series_frame := (time_series_frame float_of_str).
Local Abbreviation site_datum := (site_datum float_of_str read_csv).
Local Abbreviation datum_items := (datum_items float_of_str read_csv).
Local Abbreviation to_utc := (to_utc to_datetime).
Local Abbreviation add_elevations :=
  (add_elevations float_of_str to_datetime read_csv).
Local Abbreviation requests_post := (requests_post remote).
Local Abbreviation scrape := (scrape float_of_str to_datetime read_csv remote).

(** *** The assertion of line 69 *)

Lemma never_asserts_py_float x : never_asserts (py_float x).
Proof.
  destruct x; simpl; auto with asserts; try discriminate.
  destruct (Float64.is_infinite _); discriminate.
Qed.

(** The two comprehensions of lines 67 and 68 run over the same list. *)
Lemma times_and_heights_length values times gage_heights :
  rmap gage_height values = Ok gage_heights ->
  rmap date_time values = Ok times ->
  length times = length gage_heights.
Proof.
  intros Hg Ht. apply rmap_length in Hg, Ht. congruence.
Qed.

Lemma never_asserts_gage_height v : never_asserts (gage_height v).
Proof.
  unfold gage_height. apply never_asserts_bind; [auto with asserts |].
  intros x. apply never_asserts_py_float.
Qed.

Lemma never_asserts_series_of ts : never_asserts (series_of ts).
Proof.
  unfold series_of.
  apply never_asserts_bind; [unfold series_name; repeat asserts_step |].
  intros lake_name.
  apply never_asserts_bind; [unfold series_values; repeat asserts_step |].
  intros values.
  destruct (rmap gage_height values) as [gage_heights|e] eqn:Hg.
  - destruct (rmap date_time values) as [times|e] eqn:Ht.
    + simpl.
      rewrite (times_and_heights_length _ _ _ Hg Ht), Nat.eqb_refl. simpl.
      apply never_asserts_bind; [apply never_asserts_dict_update |].
      discriminate.
    + simpl. intros [=]. subst e.
      by eapply (never_asserts_rmap date_time values);
        [intros v; apply never_asserts_getitem |].
  - simpl. intros [=]. subst e.
    by eapply (never_asserts_rmap gage_height values);
      [apply never_asserts_gage_height |].
Qed.

Lemma never_asserts_series_step df ts : never_asserts (series_step df ts).
Proof.
  unfold series_step. apply never_asserts_bind.
  - apply never_asserts_series_of.
  - intros [lake_name series]. discriminate.
Qed.

Lemma never_asserts_add_datum df item : never_asserts (add_datum df item).
Proof.
  destruct item as [[] datum_elevation]; try discriminate. simpl.
  apply never_asserts_bind; [auto with asserts | intros col].
  apply never_asserts_bind; [| discriminate].
  destruct datum_elevation; discriminate.
Qed.

Lemma never_asserts_apply_column df name f :
  (forall x, never_asserts (f x)) ->
  never_asserts (apply_column df name f).
Proof.
  intros Hf. unfold apply_column.
  apply never_asserts_bind; [auto with asserts | intros col].
  apply never_asserts_bind; [| discriminate].
  by apply never_asserts_rmap.
Qed.

Lemma never_asserts_set_index {L V} (df : DataFrame L V) name :
  never_asserts (Pd.set_index df name).
Proof.
  unfold Pd.set_index.
  apply never_asserts_bind; [auto with asserts | discriminate].
Qed.

#[local] Hint Resolve never_asserts_py_float never_asserts_series_step
  never_asserts_add_datum never_asserts_apply_column
  never_asserts_set_index : asserts.

Lemma never_asserts_time_series_frame r : never_asserts (time_series_frame r).
Proof. unfold time_series_frame, time_series_list. repeat asserts_step. Qed.

Lemma never_asserts_site_datum text : never_asserts (site_datum text).
Proof. unfold site_datum. repeat asserts_step. Qed.

Lemma never_asserts_add_elevations df r :
  never_asserts (add_elevations df r).
Proof.
  unfold add_elevations, datum_items, Pd.iteritems, to_utc.
  pose proof never_asserts_site_datum.
  repeat asserts_step.
Qed.

(** *** The shape of a call *)

(** A call either stops at the check of the arguments, or after the
    first request, or makes the two requests. *)
Lemma scrape_unfold start end_ log :
  scrape start end_ log =
  match end_arg start end_ with
  | Raise e => (log, Raise e)
  | Ok ea =>
      let url := time_series_url (start_arg start) ea in
      match call (remote url) ≫= time_series_frame with
      | Raise e => (log ++ [url], Raise e)
      | Ok df =>
          ((log ++ [url]) ++ [site_url],
           call (remote site_url) ≫= add_elevations df)
      end
  end.
Proof.
  unfold scrape, time_series_url, site_url.
  unfold mbind at 1 2 3 4 5 6, io_bind, lift, requests_post.
  destruct (end_arg start end_) as [ea|e]; [|reflexivity].
  destruct (remote (base_url +:+ url_args (start_arg start) ea))
    as [r|what]; [|reflexivity].
  cbn [call mbind result_bind].
  destruct (time_series_frame r) as [df|e]; [|reflexivity].
  by destruct (remote (base_datum_url +:+ datum_url_args)) as [r'|what].
Qed.

(** C10. For every response, the times and the gage heights of a
    series are built element by element from the same [values], so
    the check [assert len(times) == len(gage_heights)] of line 69
    holds whenever it is reached: no call of [scrape] ends in its
    [AssertionError]. *)
Theorem scrape_never_asserts start end_ log :
  snd (scrape start end_ log) <> Raise AssertionError.
Proof.
  rewrite scrape_unfold.
  destruct (end_arg start end_) as [ea|e] eqn:Hea.
  - simpl.
    destruct (call _ ≫= time_series_frame) as [df|e] eqn:Hdf; simpl.
    + apply never_asserts_bind; [auto with asserts |].
      intros r. apply never_asserts_add_elevations.
    + intros [=]. subst e. revert Hdf.
      apply never_asserts_bind; [auto with asserts |].
      intros r. apply never_asserts_time_series_frame.
  - simpl. intros [=]. subst e.
    destruct start, end_; discriminate.
Qed.

(** C4. With [start=None] and an [end] that is not [None], [scrape]
    fails with the [ValueError] of line 45, and the list of requests
    is as it was before the call: no network call has been issued. *)
Theorem scrape_end_without_start (e : datetime) log :
  scrape None (Some e) log = (log, Raise invalid_argument).
Proof. by rewrite scrape_unfold. Qed.

Lemma scrape_posts_first start end_ log ea :
  end_arg start end_ = Ok ea ->
  exists rest,
    fst (scrape start end_ log)
    = log ++ time_series_url (start_arg start) ea :: rest.
Proof.
  intros Hea. rewrite scrape_unfold, Hea. simpl.
  destruct (call _ ≫= time_series_frame) as [df|e]; simpl.
  - exists [site_url]. by rewrite <- app_assoc.
  - by exists [].
Qed.

(** C5, amended. With [start=None], [scrape] fails with the
    [ValueError] of line 45 before any request exactly when [end] is
    not [None]; with [end=None] too, the call goes to the network. *)
Theorem scrape_start_absent_fails_iff (X : option datetime) log :
  scrape None X log = (log, Raise invalid_argument) <-> X <> None.
Proof.
  split.
  - intros H ->.
    destruct (scrape_posts_first None None log "" eq_refl) as [rest Hrest].
    rewrite H in Hrest. simpl in Hrest.
    apply (f_equal length) in Hrest. rewrite length_app in Hrest.
    simpl in Hrest. lia.
  - destruct X as [e|]; [intros _ | done].
    by rewrite scrape_unfold.
Qed.

End ScrapeProperties.

(** ** The store *)

Section StoreProperties.

Import Store.

Implicit Types (table stored : list Row) (files : gmap string (list Row)).

Lemma insert_rows_Ok table stored stored' u :
  insert_rows table stored = (stored', Ok u) -> stored' = stored ++ table.
Proof.
  revert stored. induction table as [|row table IH]; intros stored; simpl.
  - intros [= <- _]. by rewrite app_nil_r.
  - destruct (decide _); [discriminate |].
    intros H%IH. by rewrite H, <- app_assoc.
Qed.

Lemma insert_rows_first_present row table stored :
  timestamp row ∈ map timestamp stored ->
  insert_rows (row :: table) stored = (stored, Raise IntegrityError).
Proof. intros H. simpl. by rewrite decide_True. Qed.

(** A table with a timestamp that is stored already is rejected,
    wherever the timestamp stands in the table. *)
Lemma insert_rows_present table stored row :
  row ∈ table ->
  timestamp row ∈ map timestamp stored ->
  exists stored', insert_rows table stored = (stored', Raise IntegrityError).
Proof.
  revert stored.
  induction table as [|row0 table IH]; intros stored Hin Hts.
  - by apply elem_of_nil in Hin.
  - simpl. destruct (decide _) as [|Hfresh]; [by eexists |].
    apply elem_of_cons in Hin as [-> | Hin]; [done |].
    apply IH; [done |].
    rewrite map_app. apply elem_of_app. by left.
Qed.

(** The rows of a store keep distinct timestamps. *)
Lemma insert_rows_NoDup table stored stored' r :
  NoDup (map timestamp stored) ->
  insert_rows table stored = (stored', r) ->
  NoDup (map timestamp stored').
Proof.
  revert stored. induction table as [|row table IH]; intros stored Hnd; simpl.
  - by intros [= <- _].
  - destruct (decide _) as [|Hfresh]; [by intros [= <- _] |].
    apply IH. rewrite map_app. simpl.
    apply NoDup_app. split_and!; [done | | apply NoDup_singleton].
    intros ts Hts ->%list_elem_of_singleton. done.
Qed.

(** C1. A table that holds a timestamp already present in [levels]
    is rejected with a uniqueness violation, under either policy for
    the rows before the rejected one; and once a table has been
    inserted, inserting it again leaves the store as the first insert
    left it: no row is added, none is overwritten. *)
Theorem store_insert_present_rejected policy path table files :
  (exists row, row ∈ table
               /\ timestamp row ∈ map timestamp (levels path files)) ->
  snd (insert policy path table files) = Raise IntegrityError
  /\ (forall files0,
        insert policy path table files0 = (files, Ok tt) ->
        insert policy path table files = (files, Raise IntegrityError)
        /\ length (to_table path (fst (insert policy path table files)))
           = length (to_table path files)).
Proof.
  intros (row & Hin & Hts). split.
  - destruct (insert_rows_present _ _ _ Hin Hts) as [stored' H].
    unfold insert. rewrite H. by destruct policy.
  - intros files0 H0.
    assert (insert policy path table files = (files, Raise IntegrityError))
      as H; [| by rewrite H].
    unfold insert in H0.
    destruct (insert_rows table (levels path files0)) as [stored1 [[]|e]] eqn:H1;
      [| by destruct policy].
    injection H0 as <-.
    apply insert_rows_Ok in H1 as ->.
    destruct table as [|row0 table]; [by apply elem_of_nil in Hin |].
    unfold insert, levels at 1. rewrite lookup_insert_eq. simpl default.
    rewrite insert_rows_first_present.
    + destruct policy; [| done]. by rewrite insert_insert_eq.
    + rewrite map_app. apply elem_of_app. right. simpl. apply elem_of_cons. by left.
Qed.

(** C2. A single-row table inserted into a store that has just been
    opened at a path where no file was is read back as it is. *)
Theorem store_roundtrip policy path (row : Row) files :
  files !! path = None ->
  exists files',
    insert policy path [row] (open path files) = (files', Ok tt)
    /\ to_table path files' = [row].
Proof.
  intros Hnew. unfold open. rewrite Hnew.
  unfold insert, levels. rewrite lookup_insert_eq. simpl.
  eexists. split; [reflexivity |].
  unfold to_table, levels. by rewrite lookup_insert_eq.
Qed.

End StoreProperties.

Lemma store_insert_present_rejected_witness :
  let files :=
    fst (Store.insert Store.RollBack "test.db" Store.example_df
           (Store.open "test.db" ∅)) in
  snd (Store.insert Store.RollBack "test.db" Store.example_df files)
  = Raise IntegrityError
  /\ length (Store.to_table "test.db" files) = 1%nat.
Proof.
  intros files.
  assert (H : exists row, row ∈ Store.example_df
                /\ Store.timestamp row
                   ∈ map Store.timestamp (Store.levels "test.db" files)).
  { eexists. split; [apply elem_of_cons; left; reflexivity |].
    vm_compute. apply elem_of_cons. by left. }
  split; [| reflexivity].
  exact (proj1 (store_insert_present_rejected Store.RollBack "test.db"
                  Store.example_df files H)).
Defined.

Lemma store_roundtrip_witness :
  exists files',
    Store.insert Store.KeepEarlierRows "test.db" Store.example_df
      (Store.open "test.db" ∅) = (files', Ok tt)
    /\ Store.to_table "test.db" files' = Store.example_df.
Proof.
  apply (store_roundtrip Store.KeepEarlierRows "test.db"). reflexivity.
Defined.

(** ** The request for the time series *)

Lemma digit_cases (n : Z) :
  (n mod 10 = 0 \/ n mod 10 = 1 \/ n mod 10 = 2 \/ n mod 10 = 3
   \/ n mod 10 = 4 \/ n mod 10 = 5 \/ n mod 10 = 6 \/ n mod 10 = 7
   \/ n mod 10 = 8 \/ n mod 10 = 9)%Z.
Proof. pose proof (Z.mod_pos_bound n 10). lia. Qed.

Ltac digit_cases n :=
  let H := fresh "Hmod" in
  unfold Datetime.digit, Ref.digit_value;
  pose proof (digit_cases n) as H; destruct_or! H; rewrite H.

Lemma digit_not_amp n : Ascii.eqb (Datetime.digit n) "&" = false.
Proof. digit_cases n; reflexivity. Qed.

Lemma digit_not_equals n : Ascii.eqb (Datetime.digit n) "=" = false.
Proof. digit_cases n; reflexivity. Qed.

Lemma digit_value_digit n :
  Ref.digit_value (Datetime.digit n) = Some (n mod 10)%Z.
Proof. digit_cases n; reflexivity. Qed.

#[local] Opaque Datetime.digit.

Lemma year_digits_four n :
  (1000 <= n)%Z -> Datetime.year_digits n = Datetime.pad4 n.
Proof.
  intros Hn. unfold Datetime.year_digits.
  destruct (Z.ltb_spec n 10); [lia |].
  destruct (Z.ltb_spec n 100); [lia |].
  destruct (Z.ltb_spec n 1000); [lia | done].
Qed.

Lemma date_of_strftime_ymd t :
  valid_date t -> Url.date_of_ymd (Datetime.strftime_ymd t) = Some (date_fields t).
Proof.
  intros (Hy & Hm & Hd).
  unfold Url.date_of_ymd, Datetime.strftime_ymd.
  rewrite year_digits_four by lia.
  unfold Datetime.pad4, Datetime.pad2, Ref.two_digits.
  cbn [String.append list_ascii_of_string].
  rewrite !digit_value_digit. cbn [mbind option_bind].
  unfold date_fields. do 3 f_equal; Z.div_mod_to_equations; lia.
Qed.

Ltac compute_params :=
  unfold Url.params, time_series_url, base_url, url_args, start_arg, sites,
    Datetime.strftime_ymd, Datetime.year_digits, Datetime.pad4, Datetime.pad2;
  repeat match goal with
         | |- context [Z.ltb ?a ?b] => destruct (Z.ltb a b)
         end;
  cbn; repeat (rewrite !digit_not_amp; cbn).

Lemma params_no_dates :
  Url.params (time_series_url "" "")
  = [("sites", "05428000,05429000,05429485,425715089164700");
     ("format", "json")].
Proof. reflexivity. Qed.

Lemma params_start s :
  Url.params (time_series_url (start_arg (Some s)) "")
  = [("sites", "05428000,05429000,05429485,425715089164700");
     ("format", "json"); ("startDT", Datetime.strftime_ymd s)].
Proof. compute_params; reflexivity. Qed.

Lemma params_start_end s e :
  Url.params (time_series_url (start_arg (Some s))
                ("&endDT=" +:+ Datetime.strftime_ymd e))
  = [("sites", "05428000,05429000,05429485,425715089164700");
     ("format", "json"); ("startDT", Datetime.strftime_ymd s);
     ("endDT", Datetime.strftime_ymd e)].
Proof. compute_params; reflexivity. Qed.

Lemma base_of_time_series_url sa ea :
  Url.base (time_series_url sa ea) = base_url.
Proof. reflexivity. Qed.

Section RequestProperties.

Variable float_of_str : string -> answer spec_float.
Variable to_datetime : pyval -> answer Z.
Variable read_csv : string -> answer (DataFrame pyval pyval).
Variable remote : Remote.

Local Abbreviation scrape :=
  (scrape float_of_str to_datetime read_csv remote).

(** C8. A [start] before the year 1000 is not sent as [YYYY-MM-DD]:
    for [datetime(999, 1, 1)], whatever the service and the requests
    made before, the first request of the call is the one below, with
    [startDT=999-01-01]: a year of three digits, nine characters, which
    is no date written as [YYYY-MM-DD]. *)
Theorem scrape_year_999_request log :
  exists rest,
    fst (scrape (Some Sample.year_999) None log)
    = log
      ++ "http://waterservices.usgs.gov/nwis/iv/?&sites=05428000,05429000,05429485,425715089164700&format=json&startDT=999-01-01"
         :: rest
    /\ Url.params
         "http://waterservices.usgs.gov/nwis/iv/?&sites=05428000,05429000,05429485,425715089164700&format=json&startDT=999-01-01"
       = [("sites", "05428000,05429000,05429485,425715089164700");
          ("format", "json"); ("startDT", "999-01-01")]
    /\ Datetime.strftime_ymd Sample.year_999 = "999-01-01"
    /\ String.length "999-01-01" = 9%nat
    /\ Url.date_of_ymd "999-01-01" = None.
Proof.
  destruct (scrape_posts_first float_of_str to_datetime read_csv remote
              (Some Sample.year_999) None log _ eq_refl) as [rest Hrest].
  exists rest. split; [exact Hrest |]. by vm_compute.
Qed.

(** X15. When [end] is not given without [start], and the years of
    the arguments have four digits, the first request of [scrape] goes
    to the time-series service; its parameters are the comma-joined
    list of the four site numbers, the JSON format, a [startDT] exactly
    when [start] is given and an [endDT] exactly when [start] and [end]
    are both given, each written as [YYYY-MM-DD] for the date of its
    argument; nothing else, so no date parameter when both are
    absent. *)
Theorem scrape_time_series_request start end_ log :
  (start = None -> end_ = None) ->
  (forall t, start = Some t -> valid_date t) ->
  (forall t, end_ = Some t -> valid_date t) ->
  exists url rest dates,
    fst (scrape start end_ log) = log ++ url :: rest
    /\ Url.base url = "http://waterservices.usgs.gov/nwis/iv/?"
    /\ Url.params url
       = ("sites", "05428000,05429000,05429485,425715089164700")
         :: ("format", "json") :: dates
    /\ map (fun kv => (fst kv, Url.date_of_ymd (snd kv))) dates
       = expected_dates start end_.
Proof.
  intros Hse Hs He.
  destruct start as [s|], end_ as [e|]; [| | by discriminate Hse |].
  - destruct (scrape_posts_first float_of_str to_datetime read_csv remote
                (Some s) (Some e) log _ eq_refl) as [rest Hrest].
    eexists _, rest, _. split; [exact Hrest |].
    split; [apply base_of_time_series_url |].
    split; [apply params_start_end |].
    simpl. by rewrite !date_of_strftime_ymd by auto.
  - destruct (scrape_posts_first float_of_str to_datetime read_csv remote
                (Some s) None log _ eq_refl) as [rest Hrest].
    eexists _, rest, _. split; [exact Hrest |].
    split; [apply base_of_time_series_url |].
    split; [apply params_start |].
    simpl. by rewrite !date_of_strftime_ymd by auto.
  - destruct (scrape_posts_first float_of_str to_datetime read_csv remote
                None None log _ eq_refl) as [rest Hrest].
    eexists _, rest, _. split; [exact Hrest |].
    split; [apply base_of_time_series_url |].
    split; [apply params_no_dates | done].
Qed.

End RequestProperties.

(** ** The elevations of the sites *)

Lemma split_char_plain c s :
  without_char c s = true -> PyStr.split_char c s = [s].
Proof.
  induction s as [|c' s IH]; simpl; [done |].
  intros [Hc Hs]%andb_prop. apply negb_true_iff in Hc.
  by rewrite Hc, IH.
Qed.

Lemma split_char_app c s rest :
  without_char c s = true ->
  PyStr.split_char c (s +:+ String c rest) = s :: PyStr.split_char c rest.
Proof.
  induction s as [|c' s IH]; simpl.
  - intros _. by rewrite Ascii.eqb_refl.
  - intros [Hc Hs]%andb_prop. apply negb_true_iff in Hc.
    by rewrite Hc, IH.
Qed.

Lemma split_char_pieces c s :
  Forall (fun p => without_char c p = true) (PyStr.split_char c s).
Proof.
  induction s as [|c' s IH]; simpl.
  - by constructor.
  - destruct (Ascii.eqb c' c) eqn:Hc; [by constructor |].
    destruct (PyStr.split_char c s) as [|p ps].
    + constructor; [| done]. unfold without_char. simpl. by rewrite Hc.
    + inversion IH; subst. constructor; [| done].
      unfold without_char in *. simpl. by rewrite Hc.
Qed.

Lemma split_char_join c pieces :
  Forall (fun p => without_char c p = true) pieces ->
  pieces <> [] ->
  PyStr.split_char c (PyStr.join (String c EmptyString) pieces) = pieces.
Proof.
  induction 1 as [|p ps Hp Hps IH]; [done | intros _].
  destruct ps as [|q ps].
  - simpl. by apply split_char_plain.
  - change (PyStr.join (String c "") (p :: q :: ps))
      with (p +:+ String c (PyStr.join (String c "") (q :: ps))).
    rewrite split_char_app by done. f_equal. by apply IH.
Qed.

(** The lines of [no_hash text] are the lines of [text] that do not
    start with [#], in their order; when there is none, the one empty
    line of the empty text. *)
Lemma no_hash_lines text :
  PyStr.split_char newline (no_hash text)
  = match List.filter (fun l => negb (PyStr.startswith_char "#" l))
            (PyStr.split_char newline text) with
    | [] => [""]
    | kept => kept
    end.
Proof.
  unfold no_hash.
  pose proof (split_char_pieces newline text) as Hp.
  set (lines := PyStr.split_char newline text) in *.
  set (keep := fun l => negb (PyStr.startswith_char "#" l)).
  assert (Hk : Forall (fun p => without_char newline p = true)
                 (List.filter keep lines)).
  { clearbody lines. induction Hp as [|l ls Hl _ IH]; simpl; [constructor |].
    destruct (keep l); [by constructor | done]. }
  destruct (List.filter keep lines) as [|l ls] eqn:Hf; [done |].
  by apply split_char_join.
Qed.

Lemma assoc_tails {V} name (cols : list (string * list V)) :
  Py.assoc name (map (fun nc => (fst nc, tail (snd nc))) cols)
  = tail <$> Py.assoc name cols.
Proof.
  induction cols as [|[n c] cols IH]; simpl; [done |].
  by destruct (String.eqb n name).
Qed.

Lemma assoc_set_column {V} name name' (col : list V) cols :
  Py.assoc name' (Pd.set_column name col cols)
  = if String.eqb name name' then Some col else Py.assoc name' cols.
Proof.
  induction cols as [|[n c] cols IH]; simpl.
  - by destruct (String.eqb name name').
  - destruct (String.eqb n name) eqn:Hn; simpl.
    + apply String.eqb_eq in Hn as ->. by destruct (String.eqb name name').
    + rewrite IH.
      destruct (String.eqb n name') eqn:Hn'; [| done].
      apply String.eqb_eq in Hn' as ->.
      by rewrite String.eqb_sym, Hn.
Qed.

Lemma assoc_drop_column {V} name name' (cols : list (string * list V)) :
  String.eqb name name' = false ->
  Py.assoc name' (Pd.drop_column name cols) = Py.assoc name' cols.
Proof.
  intros Hne. induction cols as [|[n c] cols IH]; simpl; [done |].
  destruct (String.eqb n name) eqn:Hn; simpl.
  - apply String.eqb_eq in Hn as ->. by rewrite Hne.
  - by rewrite IH.
Qed.

Lemma rmap_fmap {A B C} (f : A -> result B) (g : B -> C) (l : list A) :
  rmap (fun x => g <$> f x) l = map g <$> rmap f l.
Proof.
  induction l as [|x l IH]; simpl; [done |].
  destruct (f x) as [y|e]; simpl; [| done].
  rewrite IH. by destruct (rmap f l).
Qed.

Section DatumProperties.

Variable float_of_str : string -> answer spec_float.
Variable read_csv : string -> answer (DataFrame pyval pyval).

Local Abbreviation py_float := (py_float float_of_str).
Local Abbreviation datum_items := (datum_items float_of_str read_csv).

(** C7. The text handed to [read_csv] holds exactly the lines of the
    response that do not start with [#]; of the table read from it,
    the first row is dropped, and each row that remains gives one
    elevation: the lake name of its [station_nm] with the float of
    its [alt_va]. *)
Theorem datum_items_of_table text table station_nm alt_va :
  read_csv (no_hash text) = Returns table ->
  Py.assoc "station_nm" (df_columns table) = Some station_nm ->
  Py.assoc "alt_va" (df_columns table) = Some alt_va ->
  PyStr.split_char newline (no_hash text)
  = match List.filter (fun l => negb (PyStr.startswith_char "#" l))
            (PyStr.split_char newline text) with
    | [] => [""]
    | kept => kept
    end
  /\ datum_items text
     = (names ← rmap _format_usgs_lake_names (tail station_nm);
        elevations ← rmap py_float (tail alt_va);
        Ok (zip (map PStr names) (map PFloat elevations))).
Proof.
  intros Hread Hstn Halt. split; [apply no_hash_lines |].
  unfold datum_items, site_datum, apply_column, Pd.set_index, Pd.iteritems,
    Pd.getitem, Pd.setitem_own, Pd.iloc_from1.
  rewrite Hread. cbn [call mbind result_bind df_columns df_index].
  rewrite assoc_tails, Hstn. cbn [fmap option_fmap option_map mbind result_bind].
  rewrite rmap_fmap.
  destruct (rmap _format_usgs_lake_names (tail station_nm)) as [names|e];
    [| reflexivity].
  cbn [fmap result_fmap mbind result_bind df_columns df_index].
  rewrite assoc_set_column, String.eqb_refl.
  cbn [mbind result_bind df_columns df_index].
  rewrite assoc_drop_column, assoc_set_column by reflexivity.
  change (String.eqb "station_nm" "alt_va") with false. cbv iota.
  rewrite assoc_tails, Halt.
  cbn [fmap option_fmap option_map mbind result_bind].
  rewrite rmap_fmap.
  destruct (rmap py_float (tail alt_va)) as [elevations|e]; [| reflexivity].
  cbn [fmap result_fmap mbind result_bind df_columns df_index].
  by rewrite assoc_set_column, String.eqb_refl.
Qed.

End DatumProperties.

(** ** Folds and comprehensions *)

Lemma rfold_cons {A B} (f : B -> A -> result B) (b : B) x (l : list A) :
  rfold f b (x :: l) = f b x ≫= fun b' => rfold f b' l.
Proof. reflexivity. Qed.

Lemma rfold_app {A B} (f : B -> A -> result B) (b : B) (l1 l2 : list A) :
  rfold f b (l1 ++ l2) = rfold f b l1 ≫= fun b' => rfold f b' l2.
Proof.
  revert b. induction l1 as [|x l1 IH]; intros b; simpl; [done |].
  destruct (f b x) as [b'|e]; simpl; [apply IH | done].
Qed.

Lemma rmap_app_inv {A B} (f : A -> result B) (l1 l2 : list A) (l' : list B) :
  rmap f (l1 ++ l2) = Ok l' ->
  exists l1' l2', l' = l1' ++ l2' /\ rmap f l1 = Ok l1' /\ rmap f l2 = Ok l2'.
Proof.
  revert l'. induction l1 as [|x l1 IH]; intros l'; simpl.
  - intros H. by exists [], l'.
  - intros (y & Hy & H)%bind_Ok. apply bind_Ok in H as (ys & Hys & [= <-]).
    destruct (IH _ Hys) as (l1' & l2' & -> & H1 & H2).
    exists (y :: l1'), l2'. by rewrite Hy, H1, H2.
Qed.

Lemma rmap_cons_inv {A B} (f : A -> result B) x (l : list A) (l' : list B) :
  rmap f (x :: l) = Ok l' ->
  exists y ys, l' = y :: ys /\ f x = Ok y /\ rmap f l = Ok ys.
Proof.
  simpl. intros (y & Hy & H)%bind_Ok.
  apply bind_Ok in H as (ys & Hys & [= <-]). by exists y, ys.
Qed.

Lemma rmap_lookup {A B} (f : A -> result B) (l : list A) (l' : list B) i x :
  rmap f l = Ok l' -> l !! i = Some x ->
  exists y, f x = Ok y /\ l' !! i = Some y.
Proof.
  revert l' i. induction l as [|x0 l IH]; intros l' i H Hi; [done |].
  apply rmap_cons_inv in H as (y & ys & -> & Hy & Hys).
  destruct i as [|i]; simpl in *.
  - injection Hi as <-. by exists y.
  - by apply IH.
Qed.

Lemma rmap_Forall {A B} (f : A -> result B) (P : A -> Prop) (Q : B -> Prop)
    (l : list A) (l' : list B) :
  (forall x y, f x = Ok y -> P x -> Q y) ->
  rmap f l = Ok l' -> Forall P l -> Forall Q l'.
Proof.
  intros HPQ. revert l'. induction l as [|x l IH]; intros l' H HP.
  - injection H as <-. constructor.
  - apply rmap_cons_inv in H as (y & ys & -> & Hy & Hys).
    inversion HP; subst. constructor; eauto.
Qed.

(** ** Dictionaries with string keys *)

Lemma key_eqb_str_r k t : Py.key_eqb k (PStr t) = true <-> k = PStr t.
Proof.
  destruct k; simpl; try (split; [discriminate | discriminate]).
  rewrite String.eqb_eq. split; congruence.
Qed.

Lemma key_eqb_str_l k t : Py.key_eqb (PStr t) k = true <-> k = PStr t.
Proof.
  destruct k; simpl; try (split; [discriminate | discriminate]).
  rewrite String.eqb_eq. split; congruence.
Qed.

Lemma key_eqb_str_refl t : Py.key_eqb (PStr t) (PStr t) = true.
Proof. by apply key_eqb_str_r. Qed.

Section Dict.

Context {V : Type}.
Implicit Types (d s : list (pyval * V)).

Lemma dict_get_set k v d t :
  Py.dict_get (PStr t) (Py.dict_set k v d)
  = if Py.key_eqb k (PStr t) then Some v else Py.dict_get (PStr t) d.
Proof.
  induction d as [|[k' v'] d IH]; simpl; [done |].
  destruct (Py.key_eqb k' k) eqn:Hk'k; simpl.
  - destruct (Py.key_eqb k' (PStr t)) eqn:Hk't.
    + apply key_eqb_str_r in Hk't as ->.
      apply key_eqb_str_l in Hk'k as ->. by rewrite key_eqb_str_refl.
    + destruct (Py.key_eqb k (PStr t)) eqn:Hkt; [| done].
      apply key_eqb_str_r in Hkt as ->. congruence.
  - rewrite IH.
    destruct (Py.key_eqb k' (PStr t)) eqn:Hk't; [| done].
    apply key_eqb_str_r in Hk't as ->.
    destruct (Py.key_eqb k (PStr t)) eqn:Hkt; [| done].
    apply key_eqb_str_r in Hkt as ->.
    by rewrite key_eqb_str_refl in Hk'k.
Qed.

Lemma dict_get_update_other d pairs s t :
  Py.dict_update d pairs = Ok s ->
  Forall (fun kv => fst kv <> PStr t) pairs ->
  Py.dict_get (PStr t) s = Py.dict_get (PStr t) d.
Proof.
  revert d. induction pairs as [|[k v] pairs IH]; intros d; simpl.
  - by intros [= <-].
  - destruct (Py.hashable k); [| done].
    intros H Hne. inversion Hne as [|? ? Hk Hrest]; subst.
    rewrite (IH _ H Hrest), dict_get_set.
    destruct (Py.key_eqb k (PStr t)) eqn:Hkt; [| done].
    by apply key_eqb_str_r in Hkt.
Qed.

(** The value of a key is that of the last pair with the key. *)
Lemma dict_get_update_last d p1 p2 s t v :
  Py.dict_update d (p1 ++ (PStr t, v) :: p2) = Ok s ->
  Forall (fun kv => fst kv <> PStr t) p2 ->
  Py.dict_get (PStr t) s = Some v.
Proof.
  revert d. induction p1 as [|[k0 v0] p1 IH]; intros d; simpl.
  - intros H Hne. rewrite (dict_get_update_other _ _ _ _ H Hne).
    by rewrite dict_get_set, key_eqb_str_refl.
  - destruct (Py.hashable k0); [apply IH | done].
Qed.

Lemma str_keys_set k v d :
  Py.str_keys (Py.dict_set k v d) = Py.str_keys d
  \/ exists t, k = PStr t /\ (t ∉ Py.str_keys d)
               /\ Py.str_keys (Py.dict_set k v d) = Py.str_keys d ++ [t].
Proof.
  induction d as [|[k' v'] d IH]; simpl.
  - destruct k; auto. right. exists s.
    split_and!; [done | apply not_elem_of_nil | done].
  - destruct (Py.key_eqb k' k) eqn:Hk'k.
    + left. by destruct k'.
    + destruct IH as [IH | (t & -> & Hnotin & IH)].
      * left. destruct k'; simpl; by rewrite IH.
      * right. exists t. split; [done |].
        destruct k' as [| | | |t'| |]; simpl; rewrite IH; try done.
        split; [| done].
        rewrite not_elem_of_cons. split; [| done].
        intros ->. by rewrite key_eqb_str_refl in Hk'k.
Qed.

Lemma str_keys_update_NoDup d pairs s :
  Py.dict_update d pairs = Ok s ->
  NoDup (Py.str_keys d) -> NoDup (Py.str_keys s).
Proof.
  revert d. induction pairs as [|[k v] pairs IH]; intros d; simpl.
  - by intros [= <-].
  - destruct (Py.hashable k); [| done].
    intros H Hnd. apply (IH _ H).
    destruct (str_keys_set k v d) as [-> | (t & _ & Hnotin & ->)]; [done |].
    apply NoDup_app. split_and!; [done | | apply NoDup_singleton].
    intros x Hx ->%list_elem_of_singleton. done.
Qed.

Lemma str_keys_lookup s i t v :
  s !! i = Some (PStr t, v) -> t ∈ Py.str_keys s.
Proof.
  revert i. induction s as [|[k' v'] s IH]; intros i Hi; [done |].
  destruct i as [|i]; simpl in Hi.
  - injection Hi as -> ->. simpl. apply elem_of_cons. by left.
  - apply IH in Hi. destruct k'; simpl; try done.
    apply elem_of_cons. by right.
Qed.

Lemma dict_get_lookup s i t v :
  NoDup (Py.str_keys s) ->
  s !! i = Some (PStr t, v) ->
  Py.dict_get (PStr t) s = Some v.
Proof.
  revert i. induction s as [|[k' v'] s IH]; intros i Hnd Hi; [done |].
  simpl. destruct i as [|i]; simpl in Hi.
  - injection Hi as -> ->. by rewrite key_eqb_str_refl.
  - destruct (Py.key_eqb k' (PStr t)) eqn:Hk't.
    + apply key_eqb_str_r in Hk't as ->. simpl in Hnd.
      apply NoDup_cons in Hnd as [Hnotin _]. exfalso. apply Hnotin.
      by eapply str_keys_lookup.
    + apply (IH i); [| done].
      destruct k'; simpl in Hnd; try done. by apply NoDup_cons in Hnd as [_ ?].
Qed.

End Dict.

(** ** Frames *)

Section Frames.

Context {V : Type} (fill : V).
Implicit Types (df : DataFrame pyval V) (s : list (pyval * V)).

Lemma setitem_index df n s :
  df_index (Pd.setitem fill df n s)
  = match df_index df with [] => map fst s | idx => idx end.
Proof.
  unfold Pd.setitem, Pd.ensure_valid_index.
  destruct (df_index df) as [|l idx] eqn:Hidx, s as [|kv s]; simpl;
    by rewrite ?Hidx.
Qed.

Lemma names_set_column {W} n (col : list W) cols :
  map fst (Pd.set_column n col cols)
  = if decide (n ∈ map fst cols) then map fst cols
    else map fst cols ++ [n].
Proof.
  induction cols as [|[n' c] cols IH]; cbn [Pd.set_column map fst].
  - destruct (decide (n ∈ [])) as [H|H]; [by apply elem_of_nil in H | done].
  - destruct (String.eqb n' n) eqn:Hn; cbn [map fst].
    + apply String.eqb_eq in Hn as ->.
      destruct (decide (n ∈ n :: map fst cols)) as [H|H]; [done |].
      exfalso. apply H, elem_of_cons. by left.
    + apply String.eqb_neq in Hn. rewrite IH.
      destruct (decide (n ∈ map fst cols)) as [H|H],
               (decide (n ∈ n' :: map fst cols)) as [H'|H']; try done.
      * exfalso. apply H', elem_of_cons. by right.
      * exfalso. apply elem_of_cons in H' as [-> | ?]; done.
Qed.

Lemma names_ensure_valid_index df s :
  Pd.column_names (Pd.ensure_valid_index fill df s) = Pd.column_names df.
Proof.
  unfold Pd.ensure_valid_index, Pd.column_names.
  destruct (df_index df), s; simpl; try done.
  rewrite map_map. by apply map_ext.
Qed.

Lemma setitem_names df n s :
  Pd.column_names (Pd.setitem fill df n s)
  = if decide (n ∈ Pd.column_names df) then Pd.column_names df
    else Pd.column_names df ++ [n].
Proof.
  unfold Pd.setitem at 1, Pd.column_names at 1. simpl.
  rewrite names_set_column.
  fold (Pd.column_names (Pd.ensure_valid_index fill df s)).
  by rewrite names_ensure_valid_index.
Qed.

Lemma index_equals_lookup (a b : list pyval) i t :
  Pd.index_equals a b = true ->
  b !! i = Some (PStr t) -> a !! i = Some (PStr t).
Proof.
  revert b i. induction a as [|x a IH]; intros [|y b] i; simpl; try done.
  intros [Hxy Hab]%andb_prop. destruct i as [|i]; simpl.
  - intros [= ->]. by apply key_eqb_str_r in Hxy as ->.
  - by apply IH.
Qed.

(** The column that an assignment stores holds, in each row with a
    string label, the value of the Series at the label, or the fill
    value. *)
Lemma cell_setitem_same df n s i t :
  NoDup (Py.str_keys s) ->
  df_index (Pd.setitem fill df n s) !! i = Some (PStr t) ->
  Pd.cell (Pd.setitem fill df n s) n i
  = Some (default fill (Py.dict_get (PStr t) s)).
Proof.
  intros Hnd. unfold Pd.setitem, Pd.cell. simpl.
  set (df' := Pd.ensure_valid_index fill df s).
  intros Hi. rewrite assoc_set_column, String.eqb_refl. simpl.
  destruct (Pd.index_equals (map fst s) (df_index df')) eqn:Heq; simpl.
  - pose proof (index_equals_lookup _ _ _ _ Heq Hi) as Hs.
    rewrite list_lookup_fmap in Hs.
    destruct (s !! i) as [[k v]|] eqn:Hsi; [| done].
    simpl in Hs. injection Hs as ->.
    rewrite list_lookup_fmap, Hsi. simpl.
    by rewrite (dict_get_lookup _ _ _ _ Hnd Hsi).
  - destruct (df_index df') as [|l idx] eqn:Hidx; [done |].
    unfold Pd.reindex. by rewrite list_lookup_fmap, Hi.
Qed.

(** An assignment to another column leaves a column as it is, unless
    it gives the frame its rows: then the column is filled. *)
Lemma cell_setitem_other df n m s i :
  n <> m ->
  Pd.cell (Pd.setitem fill df n s) m i
  = match df_index df, s with
    | [], _ :: _ =>
        col ← Py.assoc m (df_columns df);
        (if decide (i < length s)%nat then Some fill else None)
    | _, _ => Pd.cell df m i
    end.
Proof.
  intros Hne. unfold Pd.setitem, Pd.cell. simpl.
  rewrite assoc_set_column.
  destruct (String.eqb n m) eqn:Hnm; [by apply String.eqb_eq in Hnm |].
  unfold Pd.ensure_valid_index.
  destruct (df_index df) as [|l idx], s as [|kv s]; try done.
  simpl df_columns.
  induction (df_columns df) as [|[n' c] cols IH]; simpl; [done |].
  destruct (String.eqb n' m); [| apply IH]. simpl.
  destruct i as [|i]; simpl; [done |].
  rewrite list_lookup_fmap.
  destruct (decide (S i < S (length s))%nat) as [Hlt|Hge].
  - destruct (lookup_lt_is_Some_2 s i) as [x ->]; [lia | done].
  - rewrite lookup_ge_None_2; [done | lia].
Qed.

End Frames.

Lemma assoc_Some_names {V} n (cols : list (string * V)) c :
  Py.assoc n cols = Some c -> n ∈ map fst cols.
Proof.
  induction cols as [|[n' c'] cols IH]; simpl; [done |].
  destruct (String.eqb n' n) eqn:Hn.
  - apply String.eqb_eq in Hn as ->. intros _. apply elem_of_cons. by left.
  - intros H. apply elem_of_cons. right. by apply IH.
Qed.

Lemma frame_index sers df :
  df_index (foldl frame_step df sers)
  = match df_index df with [] => first_labels sers | idx => idx end.
Proof.
  revert df. induction sers as [|[n s] sers IH]; intros df; simpl.
  - by destruct (df_index df).
  - rewrite IH. unfold frame_step. cbn [fst snd]. rewrite setitem_index.
    destruct (df_index df) as [|l idx]; [| done].
    unfold first_labels. simpl. by destruct s.
Qed.

Lemma frame_names sers df :
  NoDup (Pd.column_names df) ->
  NoDup (Pd.column_names (foldl frame_step df sers))
  /\ (forall m, m ∈ Pd.column_names (foldl frame_step df sers)
                <-> m ∈ Pd.column_names df \/ m ∈ map fst sers).
Proof.
  revert df. induction sers as [|[n s] sers IH]; intros df Hnd; simpl.
  - split; [done |]. intros m. rewrite elem_of_nil. tauto.
  - assert (Hstep : NoDup (Pd.column_names (frame_step df (n, s)))
                    /\ forall m, m ∈ Pd.column_names (frame_step df (n, s))
                                 <-> m ∈ Pd.column_names df \/ m = n).
    { unfold frame_step. cbn [fst snd]. rewrite setitem_names.
      destruct (decide (n ∈ Pd.column_names df)) as [Hin|Hnotin].
      - split; [done |]. intros m. split; [tauto | intros [? | ->]; done].
      - split.
        + apply NoDup_app. split_and!; [done | | apply NoDup_singleton].
          intros x Hx ->%list_elem_of_singleton. done.
        + intros m. rewrite elem_of_app, list_elem_of_singleton. tauto. }
    destruct Hstep as [Hnd' Hiff]. destruct (IH _ Hnd') as [IH1 IH2].
    split; [done |]. intros m. rewrite IH2, Hiff, elem_of_cons. tauto.
Qed.

Section TableProperties.

Variable float_of_str : string -> answer spec_float.
Variable to_datetime : pyval -> answer Z.
Variable read_csv : string -> answer (DataFrame pyval pyval).
Variable remote : Remote.

Local Abbreviation gage_height := (gage_height float_of_str).
Local Abbreviation series_of := (series_of float_of_str).
Local Abbreviation series_step := (series_step float_of_str).
Local Abbreviation time_series_frame := (time_series_frame float_of_str).
Local Abbreviation datum_items := (datum_items float_of_str read_csv).
Local Abbreviation to_utc := (to_utc to_datetime).
Local Abbreviation add_elevations :=
  (add_elevations float_of_str to_datetime read_csv).
Local Abbreviation scrape :=
  (scrape float_of_str to_datetime read_csv remote).
Local Abbreviation row_labels := (row_labels float_of_str).
Local Abbreviation last_reading := (last_reading float_of_str).
Local Abbreviation reports_height := (reports_height float_of_str).
Local Abbreviation reports_datum := (reports_datum float_of_str read_csv).

(** *** The pieces of a call that returns *)

Lemma scrape_Ok start end_ log log' out :
  scrape start end_ log = (log', Ok out) ->
  exists ea r1 df r2,
    end_arg start end_ = Ok ea
    /\ remote (time_series_url (start_arg start) ea) = Returns r1
    /\ time_series_frame r1 = Ok df
    /\ remote site_url = Returns r2
    /\ add_elevations df r2 = Ok out.
Proof.
  rewrite scrape_unfold.
  destruct (end_arg start end_) as [ea|e] eqn:Hea; [| done]. cbv zeta.
  destruct (remote (time_series_url (start_arg start) ea)) as [r1|what]
    eqn:Hr1; [| done]. cbn [call mbind result_bind].
  destruct (time_series_frame r1) as [df|e] eqn:Hdf; [| done].
  destruct (remote site_url) as [r2|what] eqn:Hr2; [| done].
  cbn [call mbind result_bind]. intros [= _ H]. by exists ea, r1, df, r2.
Qed.

Lemma rfold_series_step df tss df' :
  rfold series_step df tss = Ok df' ->
  exists sers, rmap series_of tss = Ok sers /\ df' = foldl frame_step df sers.
Proof.
  revert df. induction tss as [|ts tss IH]; intros df; simpl.
  - intros [= <-]. by exists [].
  - intros (df1 & Hstep & Hrest)%bind_Ok.
    unfold series_step in Hstep.
    apply bind_Ok in Hstep as ([n s] & Hser & [= <-]).
    destruct (IH _ Hrest) as (sers & Hsers & ->).
    exists ((n, s) :: sers). by rewrite Hser, Hsers.
Qed.

Lemma time_series_frame_Ok r df :
  time_series_frame r = Ok df ->
  exists d tss sers,
    json_loads_text r = Returns d
    /\ time_series_list d = Ok tss
    /\ rmap series_of tss = Ok sers
    /\ df = frame_of sers.
Proof.
  unfold time_series_frame.
  destruct (json_loads_text r) as [d|what]; [| done].
  cbn [call mbind result_bind].
  intros (tss & Htss & H)%bind_Ok.
  apply rfold_series_step in H as (sers & Hsers & ->).
  by exists d, tss, sers.
Qed.

Lemma add_datum_keeps df item df' :
  add_datum df item = Ok df' ->
  df_index df' = df_index df
  /\ Pd.column_names df' = Pd.column_names df.
Proof.
  destruct item as [[] x]; try done. simpl.
  intros (col & Hcol & H)%bind_Ok.
  apply bind_Ok in H as (e & _ & [= <-]).
  split; [done |]. unfold Pd.setitem_own, Pd.column_names. simpl.
  rewrite names_set_column, decide_True; [done |].
  unfold Pd.getitem in Hcol.
  destruct (Py.assoc s (df_columns df)) as [c|] eqn:Hc; [| done].
  by eapply assoc_Some_names.
Qed.

Lemma rfold_add_datum_keeps items df df' :
  rfold add_datum df items = Ok df' ->
  df_index df' = df_index df
  /\ Pd.column_names df' = Pd.column_names df.
Proof.
  revert df. induction items as [|item items IH]; intros df; simpl.
  - by intros [= <-].
  - intros (df1 & H1 & Hrest)%bind_Ok.
    destruct (IH _ Hrest) as [-> ->]. by apply (add_datum_keeps _ item).
Qed.

Lemma add_elevations_Ok df r out :
  add_elevations df r = Ok out ->
  exists items df',
    datum_items (text r) = Ok items
    /\ rfold add_datum df items = Ok df'
    /\ rmap (fun l => call (to_datetime l)) (df_index df') = Ok (df_index out)
    /\ df_columns out = df_columns df'.
Proof.
  unfold add_elevations.
  intros (items & Hitems & H)%bind_Ok.
  apply bind_Ok in H as (df' & Hfold & H).
  unfold to_utc in H.
  apply bind_Ok in H as (index & Hindex & [= <-]).
  by exists items, df'.
Qed.

(** A call that returns has asked the time-series service for a
    response, and its table is made of that response alone: the row
    labels are converted from those of the frame of gage heights, and
    the columns are the lake names of the series of the response, each
    once. *)
Theorem scrape_rows_and_columns start end_ log log' out :
  scrape start end_ log = (log', Ok out) ->
  exists ea r d tss sers,
    end_arg start end_ = Ok ea
    /\ remote (time_series_url (start_arg start) ea) = Returns r
    /\ json_loads_text r = Returns d
    /\ time_series_list d = Ok tss
    /\ rmap series_of tss = Ok sers
    /\ rmap (fun l => call (to_datetime l)) (first_labels sers)
       = Ok (df_index out)
    /\ NoDup (Pd.column_names out)
    /\ (forall name, name ∈ Pd.column_names out <-> name ∈ map fst sers).
Proof.
  intros (ea & r1 & df & r2 & Hea & Hr1 & Hdf & Hr2 & Hout)%scrape_Ok.
  apply time_series_frame_Ok in Hdf as (d & tss & sers & Hd & Htss & Hsers & ->).
  apply add_elevations_Ok in Hout as (items & df' & _ & Hfold & Hindex & Hcols).
  apply rfold_add_datum_keeps in Hfold as [Hidx Hnames].
  exists ea, r1, d, tss, sers. split_and!; try done.
  - rewrite Hidx in Hindex. unfold frame_of in Hindex.
    by rewrite frame_index in Hindex.
  - unfold Pd.column_names. rewrite Hcols.
    fold (Pd.column_names df'). rewrite Hnames.
    apply frame_names. constructor.
  - intros name. unfold Pd.column_names at 1. rewrite Hcols.
    fold (Pd.column_names df'). rewrite Hnames.
    unfold frame_of.
    destruct (frame_names sers Pd.empty) as [_ ->]; [constructor |].
    unfold Pd.column_names, Pd.empty. simpl. rewrite elem_of_nil. tauto.
Qed.

(** *** The value of a lake at a time *)

Lemma series_of_Ok ts n s :
  series_of ts = Ok (n, s) ->
  series_name ts = Ok n
  /\ NoDup (Py.str_keys s)
  /\ (forall t g, last_reading ts t g -> Py.dict_get (PStr t) s = Some g).
Proof.
  unfold series_of.
  intros (n' & Hname & H)%bind_Ok.
  apply bind_Ok in H as (values & Hvalues & H).
  apply bind_Ok in H as (gs & Hgs & H).
  apply bind_Ok in H as (times & Htimes & H).
  destruct (negb _); [done |].
  apply bind_Ok in H as (s' & Hdict & [= -> ->]).
  split_and!; [done | |].
  - eapply str_keys_update_NoDup; [exact Hdict | constructor].
  - intros t g (pre & v & post & Hvals & Hdt & Hg & Hpost).
    rewrite Hvalues in Hvals. injection Hvals as ->.
    apply rmap_app_inv in Hgs as (gpre & gs2 & -> & Hgpre & Hgs2).
    apply rmap_cons_inv in Hgs2 as (g' & gpost & -> & Hg' & Hgpost).
    apply rmap_app_inv in Htimes as (tpre & ts2 & -> & Htpre & Hts2).
    apply rmap_cons_inv in Hts2 as (t' & tpost & -> & Ht' & Htpost).
    rewrite Hg in Hg'. injection Hg' as <-.
    rewrite Hdt in Ht'. injection Ht' as <-.
    unfold Py.dict in Hdict.
    rewrite zip_with_app in Hdict
      by (apply rmap_length in Hgpre, Htpre; congruence).
    simpl in Hdict.
    apply (dict_get_update_last _ _ _ _ _ _ Hdict).
    assert (Forall (fun l => l <> PStr t) tpost) as Htp.
    { eapply (rmap_Forall date_time); [| exact Htpost | exact Hpost].
      intros x y Hx Hne ->. done. }
    clear -Htp. revert gpost.
    induction Htp as [|l tpost Hl _ IH]; intros [|g0 gpost]; simpl;
      constructor; auto.
Qed.

Lemma holds_series_init lake s df :
  NoDup (Py.str_keys s) ->
  holds_series lake s (frame_step df (lake, s)).
Proof.
  intros Hnd. unfold frame_step. cbn [fst snd]. split_and!.
  - rewrite setitem_index.
    destruct (df_index df); [| done]. by destruct s.
  - unfold Pd.setitem. simpl.
    rewrite assoc_set_column, String.eqb_refl. by eexists.
  - intros i t Hi. by apply cell_setitem_same.
Qed.

Lemma holds_series_step lake s df n s' :
  n <> lake ->
  holds_series lake s df ->
  holds_series lake s (frame_step df (n, s')).
Proof.
  intros Hne (Hempty & [col Hcol] & Hcells).
  unfold frame_step. cbn [fst snd]. split_and!.
  - rewrite setitem_index.
    destruct (df_index df); [| done]. auto.
  - unfold Pd.setitem. cbn [df_columns].
    rewrite assoc_set_column.
    destruct (String.eqb n lake); [by eexists |].
    unfold Pd.ensure_valid_index.
    destruct (df_index df), s'; try by eexists.
    cbn [df_columns]. clear -Hcol.
    induction (df_columns df) as [|[n' c] cols IH]; simpl in *; [done |].
    destruct (String.eqb n' lake); [by eexists | auto].
  - intros i t. rewrite setitem_index, cell_setitem_other by done.
    destruct (df_index df) as [|l idx] eqn:Hidx.
    + destruct s' as [|kv s']; [done |].
      rewrite (Hempty eq_refl), Hcol. cbn [mbind option_bind].
      intros Hi. rewrite decide_True; [done |].
      apply lookup_lt_Some in Hi. by rewrite length_map in Hi.
    + intros Hi. destruct s'; by apply Hcells.
Qed.

Lemma holds_series_frame lake s df sers :
  Forall (fun ns => fst ns <> lake) sers ->
  holds_series lake s df ->
  holds_series lake s (foldl frame_step df sers).
Proof.
  intros Hsers. revert df.
  induction Hsers as [|[n s'] sers Hn _ IH]; intros df Hdf; simpl; [done |].
  apply IH. by apply holds_series_step.
Qed.

Lemma add_datum_other lake df item df' :
  add_datum df item = Ok df' ->
  fst item <> PStr lake ->
  Py.assoc lake (df_columns df') = Py.assoc lake (df_columns df).
Proof.
  destruct item as [[] x]; try done. simpl.
  intros (col & Hcol & H)%bind_Ok Hne.
  apply bind_Ok in H as (e & _ & [= <-]). simpl.
  rewrite assoc_set_column.
  destruct (String.eqb s lake) eqn:Hs; [| done].
  apply String.eqb_eq in Hs as ->. done.
Qed.

Lemma rfold_add_datum_other lake items df df' :
  rfold add_datum df items = Ok df' ->
  Forall (fun item => fst item <> PStr lake) items ->
  Py.assoc lake (df_columns df') = Py.assoc lake (df_columns df).
Proof.
  intros H Hitems. revert df H.
  induction Hitems as [|item items Hitem _ IH]; intros df; simpl.
  - by intros [= <-].
  - intros (df1 & H1 & Hrest)%bind_Ok.
    rewrite (IH _ Hrest). by eapply add_datum_other.
Qed.

Lemma add_datum_same lake e df df' :
  add_datum df (PStr lake, PFloat e) = Ok df' ->
  Py.assoc lake (df_columns df')
  = map (fun x => Float64.add x e) <$> Py.assoc lake (df_columns df).
Proof.
  simpl. unfold Pd.getitem.
  destruct (Py.assoc lake (df_columns df)) as [col|]; [| done].
  cbn [mbind result_bind]. intros [= <-]. simpl.
  by rewrite assoc_set_column, String.eqb_refl.
Qed.

(** The sum for a lake with one site row: when [scrape] returns, the
    response reports the gage height [g] for a lake at a time [t], the
    site response has one row for the lake, with the elevation [e],
    and [t] labels a row of the table, then the table has [g + e] for
    the lake in a row of that time. *)
Theorem scrape_adds_datum start end_ log log' out ea r1 d r2 lake t g e
    instant :
  scrape start end_ log = (log', Ok out) ->
  end_arg start end_ = Ok ea ->
  remote (time_series_url (start_arg start) ea) = Returns r1 ->
  json_loads_text r1 = Returns d ->
  remote site_url = Returns r2 ->
  reports_height d lake t g ->
  reports_datum (text r2) lake e ->
  (exists labels, row_labels d = Ok labels /\ PStr t ∈ labels) ->
  to_datetime (PStr t) = Returns instant ->
  value_at out lake instant (Float64.add g e).
Proof.
  intros (ea' & r1' & df & r2' & Hea' & Hr1' & Hdf & Hr2' & Hout)%scrape_Ok
    Hea Hr1 Hd Hr2 Hheight Hdatum (labels & Hlabels & Hin) Hinstant.
  rewrite Hea in Hea'. injection Hea' as <-.
  rewrite Hr1 in Hr1'. injection Hr1' as <-.
  rewrite Hr2 in Hr2'. injection Hr2' as <-.
  apply time_series_frame_Ok in Hdf as (d' & tss & sers & Hd' & Htss & Hsers & ->).
  rewrite Hd in Hd'. injection Hd' as <-.
  (* the Series of the lake *)
  destruct Hheight as (before & ts & after & Htss' & Hname & Hafter & Hlast).
  rewrite Htss in Htss'. injection Htss' as ->.
  pose proof Hsers as Hsers0.
  apply rmap_app_inv in Hsers as (sb & sers2 & -> & Hsb & Hsers2).
  apply rmap_cons_inv in Hsers2 as ([n s] & sa & -> & Hts & Hsa).
  apply series_of_Ok in Hts as (Hn & Hnd & Hget).
  rewrite Hname in Hn. injection Hn as <-.
  specialize (Hget _ _ Hlast).
  assert (Forall (fun ns => fst ns <> lake) sa) as Hsa'.
  { eapply (rmap_Forall series_of); [| exact Hsa | exact Hafter].
    intros ts' [n' s'] Hts' Hne. apply series_of_Ok in Hts' as (Hn' & _).
    simpl. intros ->. done. }
  (* the frame of gage heights *)
  assert (holds_series lake s (frame_of (sb ++ (lake, s) :: sa)))
    as (_ & _ & Hcells).
  { unfold frame_of. rewrite foldl_app. simpl.
    apply holds_series_frame; [done |]. by apply holds_series_init. }
  (* the row of [t] *)
  unfold row_labels in Hlabels.
  rewrite Htss in Hlabels. cbn [mbind result_bind] in Hlabels.
  apply bind_Ok in Hlabels as (sers' & Hsers' & [= <-]).
  rewrite Hsers0 in Hsers'. injection Hsers' as <-.
  unfold frame_of in Hout, Hcells.
  apply add_elevations_Ok in Hout as (items & df' & Hitems & Hfold & Hindex & Hcols).
  pose proof (frame_index (sb ++ (lake, s) :: sa) Pd.empty) as Hidx.
  simpl in Hidx.
  apply list_elem_of_lookup in Hin as [i Hi]. rewrite <- Hidx in Hi.
  specialize (Hcells _ _ Hi). rewrite Hget in Hcells. simpl in Hcells.
  (* the elevations *)
  destruct Hdatum as (ibefore & iafter & Hitems' & Hothers).
  rewrite Hitems in Hitems'. injection Hitems' as ->.
  apply Forall_app in Hothers as [Hibefore Hiafter].
  rewrite rfold_app in Hfold.
  apply bind_Ok in Hfold as (df1 & Hdf1 & Hfold). rewrite rfold_cons in Hfold.
  apply bind_Ok in Hfold as (df2 & Hdf2 & Hdf3).
  pose proof (rfold_add_datum_keeps _ _ _ Hdf1) as [Hidx1 _].
  pose proof (add_datum_keeps _ _ _ Hdf2) as [Hidx2 _].
  pose proof (rfold_add_datum_keeps _ _ _ Hdf3) as [Hidx3 _].
  pose proof (rfold_add_datum_other lake _ _ _ Hdf1 Hibefore) as Hcol1.
  pose proof (add_datum_same _ _ _ _ Hdf2) as Hcol2.
  pose proof (rfold_add_datum_other lake _ _ _ Hdf3 Hiafter) as Hcol3.
  (* the row of the table *)
  exists i. split.
  - rewrite <- Hidx1, <- Hidx2, <- Hidx3 in Hi.
    destruct (rmap_lookup _ _ _ _ _ Hindex Hi) as (y & Hy & Hlookup).
    rewrite Hinstant in Hy. by injection Hy as <-.
  - unfold Pd.cell in *. rewrite Hcols, Hcol3, Hcol2, Hcol1.
    destruct (Py.assoc lake (df_columns _)) as [col|]; [| done].
    simpl in *. rewrite list_lookup_fmap, Hcells. done.
Qed.

End TableProperties.

(** ** The fetcher on sample responses *)

(** C3. The reading of a lake is lost when the first series of the
    response has no reading at its time: Monona is reported at [t1]
    with the gage height 5.26 and has the elevation 840.00, Mendota,
    the first series, is reported at [t0] only, and the returned table
    has the one row of [t0]: no row has [t1], and the sum of 5.26 and
    840.00 is nowhere in the column of Monona at that time. *)
Lemma scrape_drops_unaligned_reading :
  exists log out,
    Ref.scrape (Sample.serve Sample.uneven_lakes Sample.two_sites) None None
    = (log, Ok out)
    /\ reports_height Ref.float_of_str Sample.uneven_lakes "monona" Sample.t1
         Sample.height_5_26
    /\ reports_datum Ref.float_of_str Ref.read_csv Sample.two_sites "monona"
         Sample.elevation_840
    /\ Ref.to_datetime (PStr Sample.t1) = Returns Sample.instant_t1
    /\ ~ value_at out "monona" Sample.instant_t1
           (Float64.add Sample.height_5_26 Sample.elevation_840)
    /\ df_index out = [Sample.instant_t0].
Proof.
  eexists _, _. split; [vm_compute; reflexivity |].
  split.
  { exists [Sample.time_series "LAKE MENDOTA AT MADISON, WI"
              [Sample.reading "9.52" Sample.t0]],
      (Sample.time_series "LAKE MONONA AT MADISON, WI"
         [Sample.reading "5.25" Sample.t0; Sample.reading "5.26" Sample.t1]),
      [].
    split_and!; [reflexivity | reflexivity | constructor |].
    exists [Sample.reading "5.25" Sample.t0],
      (Sample.reading "5.26" Sample.t1), [].
    split_and!; [reflexivity | reflexivity | vm_compute; reflexivity | constructor]. }
  split.
  { exists [(PStr "mendota", PFloat Sample.elevation_840)], [].
    split; [vm_compute; reflexivity |].
    repeat constructor. discriminate. }
  split; [vm_compute; reflexivity |].
  split; [| reflexivity].
  intros (i & Hi & _). destruct i as [|i]; [discriminate Hi |].
  destruct i; discriminate Hi.
Qed.

Lemma scrape_adds_datum_witness :
  exists log out,
    Ref.scrape (Sample.serve Sample.four_lakes Sample.four_sites) None None
    = (log, Ok out)
    /\ value_at out "monona" Sample.instant_t1
         (Float64.add Sample.height_5_26 Sample.elevation_840).
Proof.
  eexists _, _. split; [vm_compute; reflexivity |].
  eapply (scrape_adds_datum Ref.float_of_str Ref.to_datetime Ref.read_csv
            (Sample.serve Sample.four_lakes Sample.four_sites)
            None None [] _ _ "" _ Sample.four_lakes _ "monona" Sample.t1).
  - vm_compute. reflexivity.
  - reflexivity.
  - reflexivity.
  - reflexivity.
  - reflexivity.
  - exists [Sample.time_series "LAKE MENDOTA AT MADISON, WI"
              [Sample.reading "9.52" Sample.t0; Sample.reading "9.53" Sample.t1]],
      (Sample.time_series "LAKE MONONA AT MADISON, WI"
         [Sample.reading "5.25" Sample.t0; Sample.reading "5.26" Sample.t1]),
      [Sample.time_series "LAKE WAUBESA AT MCFARLAND, WI"
         [Sample.reading "4.75" Sample.t0; Sample.reading "4.76" Sample.t1];
       Sample.time_series "LAKE KEGONSA AT BARBER DRIVE NEAR STOUGHTON,WI"
         [Sample.reading "13.5" Sample.t0; Sample.reading "13.51" Sample.t1]].
    split_and!; [reflexivity | reflexivity | |].
    + repeat constructor; vm_compute; discriminate.
    + exists [Sample.reading "5.25" Sample.t0],
        (Sample.reading "5.26" Sample.t1), [].
      split_and!;
        [reflexivity | reflexivity | vm_compute; reflexivity | constructor].
  - exists [(PStr "mendota", PFloat Sample.elevation_840)],
      [(PStr "waubesa", PFloat Sample.elevation_840);
       (PStr "kegonsa", PFloat (Ref.float_of_ratio false 83000 2))].
    split; [vm_compute; reflexivity |].
    repeat constructor; discriminate.
  - exists [PStr Sample.t0; PStr Sample.t1].
    split; [vm_compute; reflexivity |].
    apply elem_of_cons. right. apply elem_of_cons. by left.
  - vm_compute. reflexivity.
Defined.

(** C5, as stated, fails at [X = None]: with neither [start] nor [end]
    the call makes its two requests and returns a table. *)
Lemma scrape_without_arguments_returns :
  exists out,
    Ref.scrape (Sample.serve Sample.four_lakes Sample.four_sites) None None
    = ([ "http://waterservices.usgs.gov/nwis/iv/?&sites=05428000,05429000,05429485,425715089164700&format=json";
         "https://waterservices.usgs.gov/nwis/site/?&sites=05428000,05429000,05429485,425715089164700&format=rdb" ],
       Ok out)
    /\ Pd.column_names out = ["mendota"; "monona"; "waubesa"; "kegonsa"]
    /\ df_index out = [Sample.instant_t0; Sample.instant_t1].
Proof. eexists. split; [vm_compute; reflexivity |]. by split. Qed.

(** C9. Rows before [start] are returned: asked for the time from
    noon of 2018-10-01 to noon of 2018-10-02, the fetcher sends the two
    dates, and returns the rows of the response as they are: the two
    readings of the early morning of 2018-10-01 (05:00 and 05:15 UTC),
    before [start]. *)
Lemma scrape_returns_rows_before_start :
  exists out,
    Ref.scrape (Sample.serve Sample.four_lakes Sample.four_sites)
      (Some Sample.noon_oct_1) (Some Sample.noon_oct_2)
    = ([ "http://waterservices.usgs.gov/nwis/iv/?&sites=05428000,05429000,05429485,425715089164700&format=json&startDT=2018-10-01&endDT=2018-10-02";
         "https://waterservices.usgs.gov/nwis/site/?&sites=05428000,05429000,05429485,425715089164700&format=rdb" ],
       Ok out)
    /\ df_index out = [Sample.instant_t0; Sample.instant_t1]
    /\ (Sample.instant_t1 < Datetime.instant Sample.noon_oct_1)%Z
    /\ ~ Forall (fun t => (Datetime.instant Sample.noon_oct_1 <= t
                           <= Datetime.instant Sample.noon_oct_2)%Z)
           (df_index out).
Proof.
  eexists. split; [vm_compute; reflexivity |].
  split; [reflexivity |]. split; [reflexivity |].
  intros H. inversion H as [|? ? [Hle _] _]; subst.
  vm_compute in Hle. by apply Hle.
Qed.

Lemma scrape_rows_and_columns_witness :
  exists out,
    snd (Ref.scrape (Sample.serve Sample.four_lakes Sample.four_sites)
           (Some Sample.noon_oct_1) (Some Sample.noon_oct_2)) = Ok out
    /\ NoDup (Pd.column_names out)
    /\ (forall name,
          name ∈ Pd.column_names out
          <-> name ∈ ["mendota"; "monona"; "waubesa"; "kegonsa"]).
Proof.
  eexists. split; [vm_compute; reflexivity |].
  edestruct (scrape_rows_and_columns Ref.float_of_str Ref.to_datetime
               Ref.read_csv
               (Sample.serve Sample.four_lakes Sample.four_sites)
               (Some Sample.noon_oct_1) (Some Sample.noon_oct_2) [])
    as (ea & r & d & tss & sers & Hea & Hr & Hd & Htss & Hsers & _ & Hnd & Hnames);
    [vm_compute; reflexivity |].
  split; [exact Hnd |].
  injection Hea as <-. vm_compute in Hr. injection Hr as <-.
  vm_compute in Hd. injection Hd as <-.
  vm_compute in Htss. injection Htss as <-.
  vm_compute in Hsers. injection Hsers as <-.
  exact Hnames.
Defined.

Lemma scrape_time_series_request_witness :
  exists url rest dates,
    fst (Ref.scrape (Sample.serve Sample.four_lakes Sample.four_sites)
           (Some Sample.noon_oct_1) None)
    = [] ++ url :: rest
    /\ Url.base url = "http://waterservices.usgs.gov/nwis/iv/?"
    /\ Url.params url
       = ("sites", "05428000,05429000,05429485,425715089164700")
         :: ("format", "json") :: dates
    /\ map (fun kv => (fst kv, Url.date_of_ymd (snd kv))) dates
       = [("startDT", Some (2018, 10, 1)%Z)].
Proof.
  apply (scrape_time_series_request Ref.float_of_str Ref.to_datetime
           Ref.read_csv (Sample.serve Sample.four_lakes Sample.four_sites)
           (Some Sample.noon_oct_1) None []).
  - discriminate.
  - intros t [= <-]. unfold valid_date. simpl. lia.
  - discriminate.
Defined.

Lemma datum_items_of_table_witness :
  datum_items Ref.float_of_str Ref.read_csv Sample.two_sites
  = Ok [ (PStr "mendota", PFloat Sample.elevation_840);
         (PStr "monona", PFloat Sample.elevation_840) ].
Proof.
  edestruct (datum_items_of_table Ref.float_of_str Ref.read_csv
               Sample.two_sites) as [_ H];
    [vm_compute; reflexivity | reflexivity | reflexivity |].
  rewrite H. vm_compute. reflexivity.
Defined.


(** * Further properties *)

(** ** The shape of a lake name *)

Lemma all_chars_app p s t :
  PyStr.all_chars p (s +:+ t) = PyStr.all_chars p s && PyStr.all_chars p t.
Proof.
  induction s as [|c s IH]; simpl; [done |]. by rewrite IH, andb_assoc.
Qed.

Lemma split_scan_shape tok s :
  (forall t, tok = Some t ->
             t <> "" /\ PyStr.all_chars (fun c => negb (PyStr.isspace c)) t = true) ->
  Forall (fun t => t <> ""
                   /\ PyStr.all_chars (fun c => negb (PyStr.isspace c)) t = true)
    (PyStr.split_scan tok s).
Proof.
  revert tok. induction s as [|c s IH]; intros tok Htok; simpl.
  - destruct tok as [t|]; [| constructor]. constructor; auto.
  - destruct (PyStr.isspace c) eqn:Hc.
    + destruct tok as [t|].
      * constructor; [auto |]. by apply IH.
      * by apply IH.
    + destruct tok as [t|]; apply IH; intros t' [= <-].
      * destruct (Htok t eq_refl) as [Hne Hall]. split.
        -- by destruct t.
        -- rewrite all_chars_app, Hall. simpl. by rewrite Hc.
      * split; [done |]. simpl. by rewrite Hc.
Qed.

Lemma lower_char_not_space c :
  PyStr.isspace c = false -> PyStr.isspace (PyStr.lower_char c) = false.
Proof.
  destruct c as [[] [] [] [] [] [] [] []]; vm_compute; congruence.
Qed.

Lemma lower_char_lower_char c :
  PyStr.lower_char (PyStr.lower_char c) = PyStr.lower_char c.
Proof. destruct c as [[] [] [] [] [] [] [] []]; reflexivity. Qed.

Lemma lower_shape t :
  t <> "" ->
  PyStr.all_chars (fun c => negb (PyStr.isspace c)) t = true ->
  lake_name_shape (PyStr.lower t).
Proof.
  intros Hne Hall. split_and!.
  - by destruct t.
  - clear Hne. induction t as [|c t IH]; simpl in *; [done |].
    apply andb_prop in Hall as [Hc Ht]. apply negb_true_iff in Hc.
    by rewrite (lower_char_not_space _ Hc), IH.
  - clear. induction t as [|c t IH]; simpl; [done |].
    by rewrite lower_char_lower_char, IH.
Qed.

Lemma second_token_shape s t0 t1 toks :
  PyStr.split_whitespace s = t0 :: t1 :: toks ->
  lake_name_shape (PyStr.lower t1).
Proof.
  intros Hsplit.
  pose proof (split_scan_shape None s ltac:(done)) as Htoks.
  unfold PyStr.split_whitespace in Hsplit. rewrite Hsplit in Htoks.
  inversion Htoks as [|? ? _ Hrest]; subst.
  inversion Hrest as [|? ? [Hne Hall] _]; subst.
  by apply lower_shape.
Qed.

(** X1. Whatever the display name, a lake name that
    [_format_usgs_lake_names] returns is not empty, has no white space
    in it, and is in lower case already. *)
Theorem format_name_shape (x : pyval) (n : string) :
  _format_usgs_lake_names x = Ok n -> lake_name_shape n.
Proof.
  destruct x as [| | | |s| |]; try done. simpl.
  destruct (PyStr.split_whitespace s) as [|t0 [|t1 toks]] eqn:Hsplit;
    try done.
  intros [= <-]. by eapply second_token_shape.
Qed.

Lemma format_name_shape_witness :
  _format_usgs_lake_names (PStr "LAKE KEGONSA AT BARBER DRIVE NEAR STOUGHTON,WI")
  = Ok "kegonsa"
  /\ lake_name_shape "kegonsa".
Proof.
  split; [reflexivity |].
  apply (format_name_shape
           (PStr "LAKE KEGONSA AT BARBER DRIVE NEAR STOUGHTON,WI")).
  reflexivity.
Defined.

(** ** The lines of the site response *)

Lemma split_char_not_nil c s : PyStr.split_char c s <> [].
Proof.
  destruct s as [|c' s]; simpl; [done |].
  destruct (Ascii.eqb c' c); [done |].
  by destruct (PyStr.split_char c s).
Qed.

Lemma join_split_char c s :
  PyStr.join (String c EmptyString) (PyStr.split_char c s) = s.
Proof.
  induction s as [|c' s IH]; simpl; [done |].
  pose proof (split_char_not_nil c s) as Hne.
  destruct (PyStr.split_char c s) as [|p ps] eqn:Hs; [done |].
  destruct (Ascii.eqb c' c) eqn:Hc.
  - apply Ascii.eqb_eq in Hc as ->.
    change (PyStr.join (String c "") ("" :: p :: ps))
      with (String c (PyStr.join (String c "") (p :: ps))).
    by rewrite IH.
  - destruct ps as [|q ps]; simpl in *; by rewrite <- IH.
Qed.

Lemma filter_all {A} (p : A -> bool) (l : list A) :
  Forall (fun x => p x = true) l -> List.filter p l = l.
Proof.
  induction 1 as [|x l Hx _ IH]; simpl; [done |]. by rewrite Hx, IH.
Qed.

Lemma Forall_filter_true {A} (p : A -> bool) (l : list A) :
  Forall (fun x => p x = true) (List.filter p l).
Proof.
  induction l as [|x l IH]; simpl; [constructor |].
  destruct (p x) eqn:Hx; [by constructor | done].
Qed.

(** X2. No line of the text that the fetcher hands to [read_csv]
    starts with [#], and stripping the comment lines a second time
    changes nothing. *)
Theorem no_hash_clean text :
  Forall (fun l => PyStr.startswith_char "#" l = false)
    (PyStr.split_char newline (no_hash text))
  /\ no_hash (no_hash text) = no_hash text.
Proof.
  pose proof (no_hash_lines text) as Hlines.
  pose proof (Forall_filter_true
                (fun l => negb (PyStr.startswith_char "#" l))
                (PyStr.split_char newline text)) as Hkept.
  assert (Hclean : Forall (fun l => negb (PyStr.startswith_char "#" l) = true)
                     (PyStr.split_char newline (no_hash text))).
  { rewrite Hlines.
    destruct (List.filter _ (PyStr.split_char newline text)); [| done].
    by repeat constructor. }
  split.
  - eapply Forall_impl; [exact Hclean |].
    intros l Hl. by apply negb_true_iff in Hl.
  - unfold no_hash at 1. rewrite (filter_all _ _ Hclean).
    apply join_split_char.
Qed.

(** ** Requests and failures *)

Lemma ymd_inj s s' :
  valid_date s -> valid_date s' ->
  Datetime.strftime_ymd s = Datetime.strftime_ymd s' ->
  date_fields s = date_fields s'.
Proof.
  intros Hs Hs' H. apply (f_equal Url.date_of_ymd) in H.
  rewrite !date_of_strftime_ymd in H by done. congruence.
Qed.

Lemma ymd_of_fields s s' :
  date_fields s = date_fields s' ->
  Datetime.strftime_ymd s = Datetime.strftime_ymd s'.
Proof.
  unfold date_fields, Datetime.strftime_ymd. by intros [= -> -> ->].
Qed.

Lemma ymd_append_inj s s' rest rest' :
  valid_date s -> valid_date s' ->
  Datetime.strftime_ymd s +:+ rest = Datetime.strftime_ymd s' +:+ rest' ->
  Datetime.strftime_ymd s = Datetime.strftime_ymd s' /\ rest = rest'.
Proof.
  intros (Hy & _) (Hy' & _). unfold Datetime.strftime_ymd.
  rewrite !year_digits_four by lia.
  unfold Datetime.pad4, Datetime.pad2. cbn.
  intros H. injection H as -> -> -> -> -> -> -> -> ->. done.
Qed.

(** X3. The request for the time series tells two calls apart by the
    dates of [start] and [end] alone: the time of day and the time zone
    of the two arguments do not reach the service, and different dates
    always give different requests. *)
Theorem request_depends_on_dates s s' e e' ea ea' :
  valid_date s -> valid_date s' -> valid_date e -> valid_date e' ->
  end_arg (Some s) (Some e) = Ok ea ->
  end_arg (Some s') (Some e') = Ok ea' ->
  time_series_url (start_arg (Some s)) ea
  = time_series_url (start_arg (Some s')) ea'
  <-> date_fields s = date_fields s' /\ date_fields e = date_fields e'.
Proof.
  intros Hs Hs' He He' [= <-] [= <-]. split.
  - unfold time_series_url, url_args, start_arg.
    intros H. do 4 apply String.app_inj in H.
    rewrite !append_assoc in H. apply String.app_inj in H.
    apply ymd_append_inj in H as [Hstart H]; [| done | done].
    assert (Datetime.strftime_ymd e = Datetime.strftime_ymd e') as Hend
      by congruence.
    split; by apply ymd_inj.
  - intros [Hstart Hend]. unfold start_arg.
    by rewrite (ymd_of_fields _ _ Hstart), (ymd_of_fields _ _ Hend).
Qed.

Lemma request_depends_on_dates_witness :
  time_series_url (start_arg (Some Sample.noon_oct_1))
    ("&endDT=" +:+ Datetime.strftime_ymd Sample.noon_oct_2)
  = time_series_url
      (start_arg (Some (mkDatetime 2018 10 1 23 59 59 0 None)))
      ("&endDT=" +:+ Datetime.strftime_ymd (mkDatetime 2018 10 2 0 0 0 0 None)).
Proof.
  apply (request_depends_on_dates Sample.noon_oct_1
           (mkDatetime 2018 10 1 23 59 59 0 None) Sample.noon_oct_2
           (mkDatetime 2018 10 2 0 0 0 0 None));
    try (unfold valid_date; simpl; lia); try reflexivity.
  by split.
Defined.

Section RequestsAndFailures.

Variable float_of_str : string -> answer spec_float.
Variable to_datetime : pyval -> answer Z.
Variable read_csv : string -> answer (DataFrame pyval pyval).
Variable remote : Remote.

Local Abbreviation time_series_frame := (time_series_frame float_of_str).
Local Abbreviation add_elevations :=
  (add_elevations float_of_str to_datetime read_csv).
Local Abbreviation scrape := (scrape float_of_str to_datetime read_csv remote).

(** X4. A call adds its requests to those made before and never makes
    more than two: the first goes to the time-series service, the second
    is the one request for the site data; and a call that returns a
    table has made both. *)
Theorem scrape_requests start end_ log :
  exists rest,
    fst (scrape start end_ log) = log ++ rest
    /\ (length rest <= 2)%nat
    /\ (forall url, rest !! 0%nat = Some url ->
                    Url.base url = "http://waterservices.usgs.gov/nwis/iv/?")
    /\ (forall url, rest !! 1%nat = Some url ->
                    url = "https://waterservices.usgs.gov/nwis/site/?&sites=05428000,05429000,05429485,425715089164700&format=rdb")
    /\ (forall out, snd (scrape start end_ log) = Ok out ->
                    length rest = 2%nat).
Proof.
  rewrite scrape_unfold.
  destruct (end_arg start end_) as [ea|e].
  - cbv zeta.
    destruct (call _ ≫= time_series_frame) as [df|e].
    + exists [time_series_url (start_arg start) ea; site_url].
      rewrite <- app_assoc. split_and!; try done.
      * by intros url [= <-].
      * by intros url [= <-].
    + exists [time_series_url (start_arg start) ea].
      split_and!; try done.
      * simpl. lia.
      * by intros url [= <-].
  - exists []. rewrite app_nil_r. split_and!; try done. simpl. lia.
Qed.

(** X5. When the time-series request fails, or its body is not JSON,
    the call ends with that failure as it is, after that one request:
    it does not try again and does not ask for the site data. *)
Theorem scrape_time_series_failure start end_ log ea what :
  end_arg start end_ = Ok ea ->
  remote (time_series_url (start_arg start) ea) = Fails what
  \/ (exists r, remote (time_series_url (start_arg start) ea) = Returns r
                /\ json_loads_text r = Fails what) ->
  scrape start end_ log
  = (log ++ [time_series_url (start_arg start) ea],
     Raise (LibraryError what)).
Proof.
  intros Hea H. rewrite scrape_unfold, Hea. cbv zeta.
  destruct H as [-> | (r & -> & Hr)]; [done |].
  cbn [call mbind result_bind]. unfold time_series_frame.
  by rewrite Hr.
Qed.

(** X6. When the time series have been tabulated and the site request
    fails, or [read_csv] refuses its text, the call ends with that
    failure as it is, after the two requests; the table of gage heights
    is not returned. *)
Theorem scrape_site_failure start end_ log ea r df what :
  end_arg start end_ = Ok ea ->
  remote (time_series_url (start_arg start) ea) = Returns r ->
  time_series_frame r = Ok df ->
  remote site_url = Fails what
  \/ (exists r', remote site_url = Returns r'
                 /\ read_csv (no_hash (text r')) = Fails what) ->
  scrape start end_ log
  = (log ++ [time_series_url (start_arg start) ea; site_url],
     Raise (LibraryError what)).
Proof.
  intros Hea Hr Hdf H. rewrite scrape_unfold, Hea. cbv zeta.
  rewrite Hr. cbn [call mbind result_bind]. rewrite Hdf.
  rewrite <- app_assoc. simpl app.
  destruct H as [-> | (r' & -> & Hcsv)]; [done |].
  cbn [call mbind result_bind].
  unfold add_elevations, datum_items, site_datum.
  by rewrite Hcsv.
Qed.

End RequestsAndFailures.

Lemma scrape_time_series_failure_witness :
  Ref.scrape Outage.down None None
  = ([ "http://waterservices.usgs.gov/nwis/iv/?&sites=05428000,05429000,05429485,425715089164700&format=json" ],
     Raise (LibraryError "ConnectionError"))
  /\ Ref.scrape Outage.garbled None None
     = ([ "http://waterservices.usgs.gov/nwis/iv/?&sites=05428000,05429000,05429485,425715089164700&format=json" ],
        Raise (LibraryError "JSONDecodeError")).
Proof.
  split.
  - apply (scrape_time_series_failure Ref.float_of_str Ref.to_datetime
             Ref.read_csv Outage.down None None [] ""); [reflexivity |].
    by left.
  - apply (scrape_time_series_failure Ref.float_of_str Ref.to_datetime
             Ref.read_csv Outage.garbled None None [] ""); [reflexivity |].
    right. by eexists.
Defined.

Lemma scrape_site_failure_witness :
  Ref.scrape (Outage.site_down Sample.four_lakes) None None
  = ([ "http://waterservices.usgs.gov/nwis/iv/?&sites=05428000,05429000,05429485,425715089164700&format=json";
       "https://waterservices.usgs.gov/nwis/site/?&sites=05428000,05429000,05429485,425715089164700&format=rdb" ],
     Raise (LibraryError "ConnectionError")).
Proof.
  eapply (scrape_site_failure Ref.float_of_str Ref.to_datetime Ref.read_csv
            (Outage.site_down Sample.four_lakes) None None [] "").
  - reflexivity.
  - reflexivity.
  - vm_compute. reflexivity.
  - by left.
Defined.

(** ** The elevations, row by row *)

Lemma format_name_Ok_shape x n :
  _format_usgs_lake_names x = Ok n -> lake_name_shape n.
Proof.
  destruct x as [| | | |s| |]; try done. simpl.
  destruct (PyStr.split_whitespace s) as [|t0 [|t1 toks]] eqn:Hsplit;
    try done.
  intros [= <-]. by eapply second_token_shape.
Qed.

Lemma rmap_fmap_Ok {A B C} (f : A -> result B) (g : B -> C) (l : list A) l' :
  rmap (fun x => g <$> f x) l = Ok l' ->
  exists ys, rmap f l = Ok ys /\ l' = map g ys.
Proof.
  rewrite rmap_fmap. destruct (rmap f l) as [ys|e]; [| done].
  intros [= <-]. by exists ys.
Qed.

Lemma Forall_zip_typed (names : list string) (es : list spec_float) :
  Forall lake_name_shape names ->
  Forall (fun item => exists n e, item = (PStr n, PFloat e) /\ lake_name_shape n)
    (zip (map PStr names) (map PFloat es)).
Proof.
  intros Hnames. revert es.
  induction Hnames as [|n names Hn _ IH]; intros [|e es]; simpl;
    constructor; eauto.
Qed.

Section Elevations.

Variable float_of_str : string -> answer spec_float.
Variable read_csv : string -> answer (DataFrame pyval pyval).

Local Abbreviation py_float := (py_float float_of_str).
Local Abbreviation site_datum := (site_datum float_of_str read_csv).
Local Abbreviation datum_items := (datum_items float_of_str read_csv).

Lemma datum_items_Ok text items :
  datum_items text = Ok items ->
  exists table station_nm alt_va names elevations,
    read_csv (no_hash text) = Returns table
    /\ Py.assoc "station_nm" (df_columns table) = Some station_nm
    /\ Py.assoc "alt_va" (df_columns table) = Some alt_va
    /\ rmap _format_usgs_lake_names (tail station_nm) = Ok names
    /\ rmap py_float (tail alt_va) = Ok elevations
    /\ items = zip (map PStr names) (map PFloat elevations).
Proof.
  unfold datum_items, site_datum.
  intros (datum3 & Hdatum & Hitems)%bind_Ok.
  destruct (read_csv (no_hash text)) as [table|what] eqn:Hread; [| done].
  cbn [call mbind result_bind] in Hdatum.
  apply bind_Ok in Hdatum as (d1 & Hd1 & Hdatum).
  apply bind_Ok in Hdatum as (d2 & Hd2 & Hd3).
  unfold apply_column in Hd1.
  apply bind_Ok in Hd1 as (stn & Hstn & Hd1).
  apply bind_Ok in Hd1 as (stn' & Hnames & [= <-]).
  apply rmap_fmap_Ok in Hnames as (names & Hnames & ->).
  unfold Pd.set_index, Pd.getitem, Pd.setitem_own in Hd2.
  cbn [df_columns df_index] in Hd2.
  rewrite assoc_set_column, String.eqb_refl in Hd2.
  cbn [mbind result_bind] in Hd2. injection Hd2 as <-.
  unfold apply_column in Hd3.
  apply bind_Ok in Hd3 as (alt & Halt & Hd3).
  apply bind_Ok in Hd3 as (alt' & Hes & [= <-]).
  apply rmap_fmap_Ok in Hes as (es & Hes & ->).
  unfold Pd.iteritems, Pd.getitem, Pd.setitem_own in Hitems.
  cbn [df_columns df_index] in Hitems.
  rewrite assoc_set_column, String.eqb_refl in Hitems.
  cbn [mbind result_bind] in Hitems. injection Hitems as <-.
  unfold Pd.getitem, Pd.iloc_from1 in Hstn, Halt.
  cbn [df_columns] in Hstn, Halt.
  rewrite assoc_drop_column, assoc_set_column in Halt by reflexivity.
  change (String.eqb "station_nm" "alt_va") with false in Halt.
  cbv iota in Halt. rewrite assoc_tails in Hstn, Halt.
  destruct (Py.assoc "station_nm" (df_columns table)) as [c1|] eqn:H1;
    [| done].
  destruct (Py.assoc "alt_va" (df_columns table)) as [c2|] eqn:H2;
    [| done].
  simpl in Hstn, Halt. injection Hstn as <-. injection Halt as <-.
  by exists table, c1, c2, names, es.
Qed.

Lemma datum_items_pairs text items :
  datum_items text = Ok items ->
  Forall (fun item => exists n e, item = (PStr n, PFloat e) /\ lake_name_shape n)
    items.
Proof.
  intros (table & stn & alt & names & es & _ & _ & _ & Hnames & _ & ->)
    %datum_items_Ok.
  apply Forall_zip_typed.
  eapply (rmap_Forall _format_usgs_lake_names (fun _ => True));
    [| exact Hnames | by apply Forall_true].
  intros x n Hx _. by eapply format_name_Ok_shape.
Qed.

(** X7. When the elevations can be read from the site response at
    all, every one of them pairs a lake name (a string, not empty,
    without white space, in lower case) with a float, there is one of
    them for each row after the first of the table that [read_csv]
    returned, and that table had the two columns [station_nm] and
    [alt_va]. *)
Theorem datum_items_typed text items :
  datum_items text = Ok items ->
  Forall (fun item => exists n e, item = (PStr n, PFloat e) /\ lake_name_shape n)
    items
  /\ exists table,
       read_csv (no_hash text) = Returns table
       /\ "station_nm" ∈ Pd.column_names table
       /\ "alt_va" ∈ Pd.column_names table
       /\ (well_shaped table -> length items = pred (length (df_index table))).
Proof.
  intros Hitems. split; [by eapply datum_items_pairs |].
  apply datum_items_Ok in Hitems
    as (table & stn & alt & names & es & Hread & Hstn & Halt & Hnames & Hes & ->).
  exists table. split_and!; [done | by eapply assoc_Some_names
                             | by eapply assoc_Some_names |].
  intros Hshape.
  assert (forall n c, Py.assoc n (df_columns table) = Some c ->
                      length c = length (df_index table)) as Hlen.
  { unfold well_shaped in Hshape. clear -Hshape.
    induction Hshape as [|[n' c'] cols Hc' _ IH]; intros n c; simpl; [done |].
    destruct (String.eqb n' n); [by intros [= <-] | apply IH]. }
  apply rmap_length in Hnames, Hes.
  assert (forall A (l : list A), length (tail l) = pred (length l)) as Htail
    by (by intros A []).
  rewrite length_zip_with, !length_map, Hnames, Hes, !Htail.
  rewrite (Hlen _ _ Hstn), (Hlen _ _ Halt). lia.
Qed.

End Elevations.

Lemma datum_items_typed_witness :
  Forall (fun item => exists n e, item = (PStr n, PFloat e) /\ lake_name_shape n)
    [ (PStr "mendota", PFloat Sample.elevation_840);
      (PStr "monona", PFloat Sample.elevation_840) ].
Proof.
  apply (datum_items_typed Ref.float_of_str Ref.read_csv Sample.two_sites).
  vm_compute. reflexivity.
Defined.

(** ** The shape of a frame *)

Lemma Forall_set_column {W} (P : string * list W -> Prop) n col cols :
  Forall P cols -> P (n, col) -> Forall P (Pd.set_column n col cols).
Proof.
  intros Hcols Hcol. induction Hcols as [|[n' c] cols Hc Hrest IH]; simpl.
  - by constructor.
  - destruct (String.eqb n' n) eqn:Hn.
    + apply String.eqb_eq in Hn as ->. by constructor.
    + by constructor.
Qed.

Lemma index_equals_length a b :
  Pd.index_equals a b = true -> length a = length b.
Proof.
  revert b. induction a as [|x a IH]; intros [|y b]; simpl; try done.
  intros [_ H]%andb_prop. f_equal. by apply IH.
Qed.

Lemma well_shaped_setitem {V} (fill : V) (df : DataFrame pyval V) n s :
  well_shaped df -> well_shaped (Pd.setitem fill df n s).
Proof.
  intros Hdf. unfold well_shaped, Pd.setitem. cbn [df_index df_columns].
  set (df' := Pd.ensure_valid_index fill df s).
  assert (Hdf' : well_shaped df').
  { unfold df', Pd.ensure_valid_index.
    destruct (df_index df) as [|l idx] eqn:Hidx, s as [|kv s']; try done.
    unfold well_shaped. cbn [df_index df_columns].
    apply Forall_map, Forall_true. intros [n' c]. simpl.
    by rewrite !length_map. }
  assert (Hnil : df_index df' = [] -> s = []).
  { unfold df', Pd.ensure_valid_index.
    destruct (df_index df) as [|l idx] eqn:Hidx, s as [|kv s']; try done.
    by rewrite Hidx. }
  apply Forall_set_column; [exact Hdf' |]. simpl.
  destruct (Pd.index_equals (map fst s) (df_index df')) eqn:Heq; simpl.
  - apply index_equals_length in Heq. by rewrite <- Heq, !length_map.
  - destruct (df_index df') as [|l idx] eqn:Hidx.
    + by rewrite (Hnil eq_refl).
    + unfold Pd.reindex. by rewrite length_map.
Qed.

Lemma well_shaped_frame sers df :
  well_shaped df -> well_shaped (foldl frame_step df sers).
Proof.
  revert df. induction sers as [|[n s] sers IH]; intros df Hdf; simpl;
    [done |].
  apply IH. by apply well_shaped_setitem.
Qed.

Lemma frame_names_order sers df :
  Pd.column_names (foldl frame_step df sers)
  = foldl append_new (Pd.column_names df) (map fst sers).
Proof.
  revert df. induction sers as [|[n s] sers IH]; intros df; simpl; [done |].
  rewrite IH. unfold frame_step. cbn [fst snd].
  by rewrite setitem_names.
Qed.

Lemma assoc_None_names {V} n (cols : list (string * V)) :
  n ∉ map fst cols -> Py.assoc n cols = None.
Proof.
  induction cols as [|[n' c] cols IH]; simpl; [done |].
  rewrite not_elem_of_cons. intros [Hne Hnotin].
  destruct (String.eqb n' n) eqn:Hn; [| by apply IH].
  by apply String.eqb_eq in Hn.
Qed.

Lemma foldl_add_nan es :
  foldl Float64.add Float64.nan es = Float64.nan.
Proof. induction es as [|e es IH]; simpl; [done | exact IH]. Qed.

Section Tables.

Variable float_of_str : string -> answer spec_float.
Variable to_datetime : pyval -> answer Z.
Variable read_csv : string -> answer (DataFrame pyval pyval).
Variable remote : Remote.

Local Abbreviation series_of := (series_of float_of_str).
Local Abbreviation time_series_frame := (time_series_frame float_of_str).
Local Abbreviation datum_items := (datum_items float_of_str read_csv).
Local Abbreviation add_elevations :=
  (add_elevations float_of_str to_datetime read_csv).
Local Abbreviation scrape := (scrape float_of_str to_datetime read_csv remote).
Local Abbreviation row_labels := (row_labels float_of_str).
Local Abbreviation reports_height := (reports_height float_of_str).

Lemma scrape_after_two_requests start end_ log ea r1 df r2 :
  end_arg start end_ = Ok ea ->
  remote (time_series_url (start_arg start) ea) = Returns r1 ->
  time_series_frame r1 = Ok df ->
  remote site_url = Returns r2 ->
  scrape start end_ log
  = (log ++ [time_series_url (start_arg start) ea; site_url],
     add_elevations df r2).
Proof.
  intros Hea Hr1 Hdf Hr2. rewrite scrape_unfold, Hea. cbv zeta.
  rewrite Hr1. cbn [call mbind result_bind]. rewrite Hdf, Hr2.
  by rewrite <- app_assoc.
Qed.

Lemma add_datum_well_shaped df item df' :
  add_datum df item = Ok df' -> well_shaped df -> well_shaped df'.
Proof.
  destruct item as [[] x]; try done. simpl.
  intros (col & Hcol & H)%bind_Ok Hdf.
  apply bind_Ok in H as (e & _ & [= <-]).
  unfold well_shaped, Pd.setitem_own. cbn [df_index df_columns].
  apply Forall_set_column; [done |]. simpl. rewrite length_map.
  unfold Pd.getitem in Hcol.
  destruct (Py.assoc s (df_columns df)) as [c|] eqn:Hc; [| done].
  injection Hcol as ->. clear -Hc Hdf. unfold well_shaped in Hdf.
  induction Hdf as [|[n' c'] cols Hc' _ IH]; simpl in Hc; [done |].
  destruct (String.eqb n' s); [by injection Hc as <- | auto].
Qed.

Lemma rfold_add_datum_well_shaped items df df' :
  rfold add_datum df items = Ok df' -> well_shaped df -> well_shaped df'.
Proof.
  revert df. induction items as [|item items IH]; intros df; simpl.
  - by intros [= <-].
  - intros (df1 & H1 & Hrest)%bind_Ok Hdf.
    apply (IH _ Hrest). by eapply add_datum_well_shaped.
Qed.

(** X8. A table that [scrape] returns is rectangular: each of its
    columns has exactly one value for each of its rows. *)
Theorem scrape_well_shaped start end_ log log' out :
  scrape start end_ log = (log', Ok out) -> well_shaped out.
Proof.
  intros (ea & r1 & df & r2 & _ & _ & Hdf & _ & Hout)%scrape_Ok.
  apply time_series_frame_Ok in Hdf as (d & tss & sers & _ & _ & _ & ->).
  apply add_elevations_Ok in Hout as (items & df' & _ & Hfold & Hindex & Hcols).
  apply rfold_add_datum_well_shaped in Hfold;
    [| apply well_shaped_frame; constructor].
  unfold well_shaped in *. rewrite Hcols.
  apply rmap_length in Hindex. by rewrite Hindex.
Qed.

Lemma rmap_series_names tss sers :
  rmap series_of tss = Ok sers -> rmap series_name tss = Ok (map fst sers).
Proof.
  revert sers. induction tss as [|ts tss IH]; intros sers H.
  - by injection H as <-.
  - apply rmap_cons_inv in H as ([n s] & sers' & -> & Hts & Hrest).
    apply series_of_Ok in Hts as (Hn & _).
    simpl. by rewrite Hn, (IH _ Hrest).
Qed.

(** X9. The columns of a returned table stand in the order in which
    the response names the lakes, each lake at the place of its first
    series. *)
Theorem scrape_column_order start end_ log log' out ea r d tss names :
  scrape start end_ log = (log', Ok out) ->
  end_arg start end_ = Ok ea ->
  remote (time_series_url (start_arg start) ea) = Returns r ->
  json_loads_text r = Returns d ->
  time_series_list d = Ok tss ->
  rmap series_name tss = Ok names ->
  Pd.column_names out = first_occurrences names.
Proof.
  intros (ea' & r1 & df & r2 & Hea' & Hr1 & Hdf & _ & Hout)%scrape_Ok
    Hea Hr Hd Htss Hnames.
  rewrite Hea in Hea'. injection Hea' as <-.
  rewrite Hr in Hr1. injection Hr1 as <-.
  apply time_series_frame_Ok in Hdf as (d' & tss' & sers & Hd' & Htss' & Hsers & ->).
  rewrite Hd in Hd'. injection Hd' as <-.
  rewrite Htss in Htss'. injection Htss' as <-.
  apply rmap_series_names in Hsers. rewrite Hnames in Hsers.
  injection Hsers as ->.
  apply add_elevations_Ok in Hout as (items & df' & _ & Hfold & _ & Hcols).
  apply rfold_add_datum_keeps in Hfold as [_ Hkeep].
  unfold Pd.column_names at 1. rewrite Hcols.
  fold (Pd.column_names df'). rewrite Hkeep.
  unfold frame_of. by rewrite frame_names_order.
Qed.

Lemma add_datum_column df n e :
  n ∈ Pd.column_names df ->
  exists df', add_datum df (PStr n, PFloat e) = Ok df'.
Proof.
  intros Hin. simpl. unfold Pd.getitem.
  destruct (Py.assoc n (df_columns df)) as [col|] eqn:Hcol; [by eexists |].
  exfalso. unfold Pd.column_names in Hin.
  clear -Hin Hcol. induction (df_columns df) as [|[n' c] cols IH];
    simpl in *; [by apply elem_of_nil in Hin |].
  destruct (String.eqb n' n) eqn:Hn; [done |].
  apply elem_of_cons in Hin as [-> | Hin]; [| auto].
  by rewrite String.eqb_refl in Hn.
Qed.

Lemma rfold_add_datum_columns items df :
  Forall (fun item => exists n e, item = (PStr n, PFloat e)
                                  /\ n ∈ Pd.column_names df) items ->
  exists df', rfold add_datum df items = Ok df'
              /\ Pd.column_names df' = Pd.column_names df.
Proof.
  intros Hitems. revert df Hitems.
  induction items as [|item items IH]; intros df Hitems.
  - by exists df.
  - inversion Hitems as [|? ? (n & e & -> & Hin) Hrest]; subst.
    destruct (add_datum_column df n e Hin) as [df1 Hdf1].
    pose proof (add_datum_keeps _ _ _ Hdf1) as [_ Hnames].
    destruct (IH df1) as (df' & Hdf' & Hnames').
    { eapply Forall_impl; [exact Hrest |].
      intros item (m & e' & -> & Hm). exists m, e'. by rewrite Hnames. }
    exists df'. rewrite rfold_cons, Hdf1. split; [done | congruence].
Qed.

(** X10. A lake that the site response lists and the time series do
    not have makes the whole call fail: once the two responses are in,
    the first item of the elevations whose lake is no column of the
    frame of gage heights ends the call with the [KeyError] of that
    lake, and no table is returned. *)
Theorem scrape_missing_lake start end_ log ea r1 df r2 before n x after :
  end_arg start end_ = Ok ea ->
  remote (time_series_url (start_arg start) ea) = Returns r1 ->
  time_series_frame r1 = Ok df ->
  remote site_url = Returns r2 ->
  datum_items (text r2) = Ok (before ++ (PStr n, x) :: after) ->
  Forall (fun item => exists m, fst item = PStr m /\ m ∈ Pd.column_names df)
    before ->
  n ∉ Pd.column_names df ->
  scrape start end_ log
  = (log ++ [time_series_url (start_arg start) ea; site_url],
     Raise (KeyError (PStr n))).
Proof.
  intros Hea Hr1 Hdf Hr2 Hitems Hbefore Hn.
  rewrite (scrape_after_two_requests _ _ _ _ _ _ _ Hea Hr1 Hdf Hr2).
  f_equal. unfold add_elevations. fold datum_items. rewrite Hitems.
  cbn [mbind result_bind]. rewrite rfold_app.
  pose proof (datum_items_pairs _ _ _ _ Hitems) as Htyped.
  apply Forall_app in Htyped as [Htyped _].
  destruct (rfold_add_datum_columns before df) as (df1 & -> & Hnames).
  { clear -Hbefore Htyped.
    induction Hbefore as [|item items (m & Hm & Hin) _ IH];
      inversion Htyped as [|? ? (n & e & -> & _) Hrest]; subst;
      constructor; eauto.
    simpl in Hm. injection Hm as <-. eauto. }
  cbn [mbind result_bind]. rewrite rfold_cons.
  cbn [add_datum]. unfold Pd.getitem.
  rewrite assoc_None_names; [done |].
  fold (Pd.column_names df1). by rewrite Hnames.
Qed.

End Tables.

(** ** The lake names of the two responses *)

Lemma tokens_skip c s toks :
  PyStr.isspace c = true ->
  whitespace_tokens s toks -> whitespace_tokens (String c s) toks.
Proof.
  intros Hc H. destruct H as [ws Hws | ws tok rest toks Hws Hne Htok Hrest H].
  - apply (tokens_done (String c ws)). simpl. by rewrite Hc.
  - apply (tokens_next (String c ws) tok rest toks); try done.
    simpl. by rewrite Hc.
Qed.

Lemma split_scan_tokens s :
  whitespace_tokens s (PyStr.split_scan None s)
  /\ (forall t,
        t <> "" ->
        PyStr.all_chars (fun c => negb (PyStr.isspace c)) t = true ->
        whitespace_tokens (t +:+ s) (PyStr.split_scan (Some t) s)).
Proof.
  induction s as [|c s [IHnone IHsome]].
  - split; [by apply (tokens_done "") |].
    intros t Hne Hall. simpl.
    apply (tokens_next "" t "" []); try done. by apply (tokens_done "").
  - simpl. destruct (PyStr.isspace c) eqn:Hc.
    + split; [by apply tokens_skip |].
      intros t Hne Hall.
      apply (tokens_next "" t (String c s)); try done.
      by apply tokens_skip.
    + split.
      * apply (IHsome (String c "")); [done |]. simpl. by rewrite Hc.
      * intros t Hne Hall.
        specialize (IHsome (t +:+ String c "")).
        rewrite append_assoc in IHsome. apply IHsome.
        -- by destruct t.
        -- rewrite all_chars_app, Hall. simpl. by rewrite Hc.
Qed.

Lemma format_name_Ok_second_token x n :
  _format_usgs_lake_names x = Ok n ->
  exists s, x = PStr s /\ second_token_lowered s n.
Proof.
  destruct x as [| | | |s| |]; try done. simpl.
  destruct (PyStr.split_whitespace s) as [|t0 [|t1 toks]] eqn:Hsplit;
    try done.
  intros [= <-]. exists s. split; [done |].
  exists (t0 :: t1 :: toks), t1. split_and!; [| done | done].
  rewrite <- Hsplit. apply split_scan_tokens.
Qed.

Lemma rmap_format_displays cells names :
  rmap _format_usgs_lake_names cells = Ok names ->
  exists displays,
    cells = map PStr displays /\ Forall2 second_token_lowered displays names.
Proof.
  revert names. induction cells as [|x cells IH]; intros names H.
  - injection H as <-. by exists [].
  - apply rmap_cons_inv in H as (n & names' & -> & Hx & Hrest).
    apply format_name_Ok_second_token in Hx as (s & -> & Hs).
    destruct (IH _ Hrest) as (displays & -> & Hall).
    exists (s :: displays). split; [done | by constructor].
Qed.

Lemma rmap_series_name_displays tss names :
  rmap series_name tss = Ok names ->
  exists displays,
    rmap site_name tss = Ok (map PStr displays)
    /\ Forall2 second_token_lowered displays names.
Proof.
  revert names. induction tss as [|ts tss IH]; intros names H.
  - injection H as <-. by exists [].
  - apply rmap_cons_inv in H as (n & names' & -> & Hts & Hrest).
    unfold series_name in Hts.
    apply bind_Ok in Hts as (source_info & Hinfo & Hts).
    apply bind_Ok in Hts as (x & Hx & Hname).
    apply format_name_Ok_second_token in Hname as (s & -> & Hs).
    destruct (IH _ Hrest) as (displays & Hdisplays & Hall).
    exists (s :: displays). split; [| by constructor].
    assert (site_name ts = Ok (PStr s)) as Hsite.
    { unfold site_name. rewrite Hinfo. cbn [mbind result_bind]. exact Hx. }
    cbn [rmap map]. by rewrite Hsite, Hdisplays.
Qed.

Lemma zip_names_lookup (names : list string) (es : list spec_float) i item :
  zip (map PStr names) (map PFloat es) !! i = Some item ->
  exists n, names !! i = Some n /\ fst item = PStr n.
Proof.
  revert es i. induction names as [|n names IH]; intros [|e es] i; try done.
  destruct i as [|i]; simpl.
  - intros [= <-]. by exists n.
  - apply IH.
Qed.

Section LakeNames.

Variable float_of_str : string -> answer spec_float.
Variable to_datetime : pyval -> answer Z.
Variable read_csv : string -> answer (DataFrame pyval pyval).
Variable remote : Remote.

Local Abbreviation datum_items := (datum_items float_of_str read_csv).
Local Abbreviation scrape := (scrape float_of_str to_datetime read_csv remote).

(** C6. In a call that returns, the fetcher derives the lake name of
    every site display name of either response as the second
    white-space separated token of the display name, lower-cased: the
    display names of the series of the time-series response are
    strings, and the columns of the table are the names so derived
    from them, each at its first place; the cells of [station_nm]
    after the first row of the site response are strings, and the
    elevation of each row is kept under the name so derived from the
    display name of that row. *)
Theorem scrape_lake_names start end_ log log' out ea r1 d r2 :
  scrape start end_ log = (log', Ok out) ->
  end_arg start end_ = Ok ea ->
  remote (time_series_url (start_arg start) ea) = Returns r1 ->
  json_loads_text r1 = Returns d ->
  remote site_url = Returns r2 ->
  (exists tss displays names,
     time_series_list d = Ok tss
     /\ rmap site_name tss = Ok (map PStr displays)
     /\ Forall2 second_token_lowered displays names
     /\ Pd.column_names out = first_occurrences names)
  /\ (exists table station_nm displays names items,
        read_csv (no_hash (text r2)) = Returns table
        /\ Py.assoc "station_nm" (df_columns table) = Some station_nm
        /\ tail station_nm = map PStr displays
        /\ Forall2 second_token_lowered displays names
        /\ datum_items (text r2) = Ok items
        /\ (forall i item,
              items !! i = Some item ->
              exists n, names !! i = Some n /\ fst item = PStr n)).
Proof.
  intros (ea' & r1' & df & r2' & Hea' & Hr1' & Hdf & Hr2' & Hout)%scrape_Ok
    Hea Hr1 Hd Hr2.
  rewrite Hea in Hea'. injection Hea' as <-.
  rewrite Hr1 in Hr1'. injection Hr1' as <-.
  rewrite Hr2 in Hr2'. injection Hr2' as <-.
  apply time_series_frame_Ok in Hdf
    as (d' & tss & sers & Hd' & Htss & Hsers & ->).
  rewrite Hd in Hd'. injection Hd' as <-.
  apply add_elevations_Ok in Hout as (items & df' & Hitems & Hfold & _ & Hcols).
  split.
  - apply rmap_series_names in Hsers.
    destruct (rmap_series_name_displays _ _ Hsers) as (displays & Hdis & Hall).
    exists tss, displays, (map fst sers). split_and!; try done.
    apply rfold_add_datum_keeps in Hfold as [_ Hkeep].
    unfold Pd.column_names at 1. rewrite Hcols.
    fold (Pd.column_names df'). rewrite Hkeep.
    unfold frame_of. by rewrite frame_names_order.
  - destruct (datum_items_Ok _ _ _ _ Hitems)
      as (table & stn & alt & names & es & Hread & Hstn & _ & Hnames & _ & ->).
    destruct (rmap_format_displays _ _ Hnames) as (displays & Hdis & Hall).
    exists table, stn, displays, names,
      (zip (map PStr names) (map PFloat es)).
    split_and!; try done.
    intros i item. apply zip_names_lookup.
Qed.

End LakeNames.

(** ** The value of a lake, row by row of the site response *)

Lemma elevations_of_cons lake item items :
  elevations_of lake (item :: items)
  = elevations_of lake [item] ++ elevations_of lake items.
Proof.
  unfold elevations_of. simpl.
  by destruct (match fst item with PStr n => _ | _ => None end).
Qed.

Section Values.

Variable float_of_str : string -> answer spec_float.
Variable to_datetime : pyval -> answer Z.
Variable read_csv : string -> answer (DataFrame pyval pyval).
Variable remote : Remote.

Local Abbreviation series_of := (series_of float_of_str).
Local Abbreviation series_values := series_values.
Local Abbreviation datum_items := (datum_items float_of_str read_csv).
Local Abbreviation scrape := (scrape float_of_str to_datetime read_csv remote).
Local Abbreviation row_labels := (row_labels float_of_str).
Local Abbreviation reports_height := (reports_height float_of_str).

Lemma add_datum_effect lake df item df' :
  add_datum df item = Ok df' ->
  Py.assoc lake (df_columns df')
  = map (fun x => foldl Float64.add x (elevations_of lake [item]))
      <$> Py.assoc lake (df_columns df).
Proof.
  destruct item as [[] x]; try done. simpl.
  intros (col & Hcol & H)%bind_Ok.
  apply bind_Ok in H as (e & He & [= <-]). simpl.
  rewrite assoc_set_column. unfold elevations_of. simpl.
  unfold Pd.getitem in Hcol.
  destruct (String.eqb s lake) eqn:Hs.
  - apply String.eqb_eq in Hs as ->.
    destruct (Py.assoc lake (df_columns df)) as [c|]; [| done].
    injection Hcol as ->.
    destruct x; try done; simpl in *; by injection He as <-.
  - destruct (Py.assoc lake (df_columns df)) as [c|]; [| done].
    simpl. by rewrite map_id.
Qed.

Lemma rfold_add_datum_effect lake items df df' :
  rfold add_datum df items = Ok df' ->
  Py.assoc lake (df_columns df')
  = map (fun x => foldl Float64.add x (elevations_of lake items))
      <$> Py.assoc lake (df_columns df).
Proof.
  revert df. induction items as [|item items IH]; intros df.
  - intros [= <-]. destruct (Py.assoc lake (df_columns df)); [| done].
    simpl. by rewrite map_id.
  - rewrite rfold_cons. intros (df1 & H1 & Hrest)%bind_Ok.
    rewrite (IH _ Hrest), (add_datum_effect _ _ _ _ H1).
    destruct (Py.assoc lake (df_columns df)) as [c|]; [| done].
    cbn [fmap option_fmap option_map]. f_equal.
    rewrite List.map_map. apply map_ext.
    intros x. by rewrite (elevations_of_cons lake item items), foldl_app.
Qed.

(** The value of a lake in a row: what the last series of the lake has
    at the label, or NaN, and then each elevation of the lake added in
    the order of the site response. *)
Lemma scrape_cell start end_ log log' out ea r1 d r2 before ts after lake t
    items instant :
  scrape start end_ log = (log', Ok out) ->
  end_arg start end_ = Ok ea ->
  remote (time_series_url (start_arg start) ea) = Returns r1 ->
  json_loads_text r1 = Returns d ->
  remote site_url = Returns r2 ->
  time_series_list d = Ok (before ++ ts :: after) ->
  series_name ts = Ok lake ->
  Forall (fun ts' => series_name ts' <> Ok lake) after ->
  datum_items (text r2) = Ok items ->
  (exists labels, row_labels d = Ok labels /\ PStr t ∈ labels) ->
  to_datetime (PStr t) = Returns instant ->
  exists s,
    series_of ts = Ok (lake, s)
    /\ value_at out lake instant
         (foldl Float64.add
            (default Float64.nan (Py.dict_get (PStr t) s))
            (elevations_of lake items)).
Proof.
  intros (ea' & r1' & df & r2' & Hea' & Hr1' & Hdf & Hr2' & Hout)%scrape_Ok
    Hea Hr1 Hd Hr2 Htss Hname Hafter Hitems (labels & Hlabels & Hin) Hinstant.
  rewrite Hea in Hea'. injection Hea' as <-.
  rewrite Hr1 in Hr1'. injection Hr1' as <-.
  rewrite Hr2 in Hr2'. injection Hr2' as <-.
  apply time_series_frame_Ok in Hdf as (d' & tss & sers & Hd' & Htss' & Hsers & ->).
  rewrite Hd in Hd'. injection Hd' as <-.
  rewrite Htss in Htss'. injection Htss' as <-.
  pose proof Hsers as Hsers0.
  apply rmap_app_inv in Hsers as (sb & sers2 & -> & Hsb & Hsers2).
  apply rmap_cons_inv in Hsers2 as ([n s] & sa & -> & Hts & Hsa).
  destruct (series_of_Ok _ _ _ _ Hts) as (Hn & Hnd & _).
  rewrite Hname in Hn. injection Hn as <-.
  exists s. split; [done |].
  assert (Forall (fun ns => fst ns <> lake) sa) as Hsa'.
  { eapply (rmap_Forall series_of); [| exact Hsa | exact Hafter].
    intros ts' [n' s'] Hts' Hne. apply series_of_Ok in Hts' as (Hn' & _).
    simpl. intros ->. done. }
  assert (holds_series lake s (frame_of (sb ++ (lake, s) :: sa)))
    as (_ & _ & Hcells).
  { unfold frame_of. rewrite foldl_app. simpl.
    apply holds_series_frame; [done |]. by apply holds_series_init. }
  unfold row_labels in Hlabels.
  rewrite Htss in Hlabels. cbn [mbind result_bind] in Hlabels.
  apply bind_Ok in Hlabels as (sers' & Hsers' & [= <-]).
  rewrite Hsers0 in Hsers'. injection Hsers' as <-.
  unfold frame_of in Hout, Hcells.
  apply add_elevations_Ok in Hout as (items' & df' & Hitems' & Hfold & Hindex & Hcols).
  rewrite Hitems in Hitems'. injection Hitems' as <-.
  pose proof (frame_index (sb ++ (lake, s) :: sa) Pd.empty) as Hidx.
  simpl in Hidx.
  apply list_elem_of_lookup in Hin as [i Hi]. rewrite <- Hidx in Hi.
  specialize (Hcells _ _ Hi).
  pose proof (rfold_add_datum_keeps _ _ _ Hfold) as [Hkeep _].
  pose proof (rfold_add_datum_effect lake _ _ _ Hfold) as Hcol.
  exists i. split.
  - rewrite <- Hkeep in Hi.
    destruct (rmap_lookup _ _ _ _ _ Hindex Hi) as (y & Hy & Hlookup).
    rewrite Hinstant in Hy. by injection Hy as <-.
  - unfold Pd.cell in *. rewrite Hcols, Hcol.
    destruct (Py.assoc lake (df_columns _)) as [col|]; [| done].
    simpl in *. by rewrite list_lookup_fmap, Hcells.
Qed.

(** X11. Every row that the site response has for a lake adds its
    elevation, in the order of the rows: with the gage height [g]
    reported for the lake at a time that labels a row, the table has
    [g] with each elevation of the lake added in turn; [g] itself when
    the site response has no row for the lake. *)
Theorem scrape_adds_each_row start end_ log log' out ea r1 d r2 lake t g
    items instant :
  scrape start end_ log = (log', Ok out) ->
  end_arg start end_ = Ok ea ->
  remote (time_series_url (start_arg start) ea) = Returns r1 ->
  json_loads_text r1 = Returns d ->
  remote site_url = Returns r2 ->
  reports_height d lake t g ->
  datum_items (text r2) = Ok items ->
  (exists labels, row_labels d = Ok labels /\ PStr t ∈ labels) ->
  to_datetime (PStr t) = Returns instant ->
  value_at out lake instant (foldl Float64.add g (elevations_of lake items)).
Proof.
  intros Hout Hea Hr1 Hd Hr2 (before & ts & after & Htss & Hname & Hafter & Hlast)
    Hitems Hlabels Hinstant.
  destruct (scrape_cell _ _ _ _ _ _ _ _ _ _ _ _ _ _ _ _
              Hout Hea Hr1 Hd Hr2 Htss Hname Hafter Hitems Hlabels Hinstant)
    as (s & Hs & Hvalue).
  destruct (series_of_Ok _ _ _ _ Hs) as (_ & _ & Hget).
  by rewrite (Hget _ _ Hlast) in Hvalue.
Qed.

(** X12. A lake whose last series has no reading at a time that
    labels a row has NaN in that row, whatever elevations the site
    response gives for the lake. *)
Theorem scrape_no_reading_nan start end_ log log' out ea r1 d r2 before ts
    after values lake t items instant :
  scrape start end_ log = (log', Ok out) ->
  end_arg start end_ = Ok ea ->
  remote (time_series_url (start_arg start) ea) = Returns r1 ->
  json_loads_text r1 = Returns d ->
  remote site_url = Returns r2 ->
  time_series_list d = Ok (before ++ ts :: after) ->
  series_name ts = Ok lake ->
  Forall (fun ts' => series_name ts' <> Ok lake) after ->
  series_values ts = Ok values ->
  Forall (fun v => date_time v <> Ok (PStr t)) values ->
  datum_items (text r2) = Ok items ->
  (exists labels, row_labels d = Ok labels /\ PStr t ∈ labels) ->
  to_datetime (PStr t) = Returns instant ->
  value_at out lake instant Float64.nan.
Proof.
  intros Hout Hea Hr1 Hd Hr2 Htss Hname Hafter Hvalues Hnone Hitems Hlabels
    Hinstant.
  destruct (scrape_cell _ _ _ _ _ _ _ _ _ _ _ _ _ _ _ _
              Hout Hea Hr1 Hd Hr2 Htss Hname Hafter Hitems Hlabels Hinstant)
    as (s & Hs & Hvalue).
  assert (Py.dict_get (PStr t) s = None) as Hget.
  { unfold series_of in Hs.
    apply bind_Ok in Hs as (n' & _ & Hs). rewrite Hvalues in Hs.
    cbn [mbind result_bind] in Hs.
    apply bind_Ok in Hs as (gs & Hgs & Hs).
    apply bind_Ok in Hs as (times & Htimes & Hs).
    destruct (negb _); [done |].
    apply bind_Ok in Hs as (s' & Hdict & [= _ ->]).
    unfold Py.dict in Hdict.
    rewrite (dict_get_update_other _ _ _ t Hdict); [done |].
    assert (Forall (fun l => l <> PStr t) times) as Htimes'.
    { eapply (rmap_Forall date_time); [| exact Htimes | exact Hnone].
      intros x y Hx Hne ->. done. }
    clear -Htimes'. revert gs.
    induction Htimes' as [|l times Hl _ IH]; intros [|g0 gs]; simpl;
      constructor; auto. }
  rewrite Hget in Hvalue. simpl in Hvalue.
  by rewrite foldl_add_nan in Hvalue.
Qed.

End Values.

Lemma scrape_well_shaped_witness :
  exists out,
    snd (Ref.scrape (Sample.serve Sample.uneven_lakes Sample.two_sites)
           None None) = Ok out
    /\ well_shaped out.
Proof.
  eexists. split; [vm_compute; reflexivity |].
  eapply (scrape_well_shaped Ref.float_of_str Ref.to_datetime Ref.read_csv
            (Sample.serve Sample.uneven_lakes Sample.two_sites) None None []).
  vm_compute. reflexivity.
Defined.

Lemma scrape_lake_names_witness :
  exists out,
    snd (Ref.scrape (Sample.serve Sample.four_lakes Sample.four_sites)
           None None) = Ok out
    /\ (exists tss displays names,
          time_series_list Sample.four_lakes = Ok tss
          /\ rmap site_name tss = Ok (map PStr displays)
          /\ Forall2 second_token_lowered displays names
          /\ Pd.column_names out = first_occurrences names)
    /\ (exists table station_nm displays names items,
          Ref.read_csv (no_hash Sample.four_sites) = Returns table
          /\ Py.assoc "station_nm" (df_columns table) = Some station_nm
          /\ tail station_nm = map PStr displays
          /\ Forall2 second_token_lowered displays names
          /\ datum_items Ref.float_of_str Ref.read_csv Sample.four_sites
             = Ok items
          /\ (forall i item,
                items !! i = Some item ->
                exists n, names !! i = Some n /\ fst item = PStr n)).
Proof.
  eexists. split; [vm_compute; reflexivity |].
  refine (scrape_lake_names Ref.float_of_str Ref.to_datetime Ref.read_csv
            (Sample.serve Sample.four_lakes Sample.four_sites) None None []
            _ _ "" (Sample.json_response Sample.four_lakes) Sample.four_lakes
            (mkResponse Sample.four_sites
               (Fails "JSONDecodeError: Expecting value")) _ _ _ _ _).
  - vm_compute. reflexivity.
  - reflexivity.
  - reflexivity.
  - reflexivity.
  - reflexivity.
Defined.

Lemma scrape_column_order_witness :
  exists out,
    snd (Ref.scrape (Sample.serve Sample.four_lakes Sample.four_sites)
           None None) = Ok out
    /\ Pd.column_names out = ["mendota"; "monona"; "waubesa"; "kegonsa"].
Proof.
  eexists. split; [vm_compute; reflexivity |].
  refine (scrape_column_order Ref.float_of_str Ref.to_datetime Ref.read_csv
            (Sample.serve Sample.four_lakes Sample.four_sites) None None []
            _ _ "" (Sample.json_response Sample.four_lakes) Sample.four_lakes
            _ ["mendota"; "monona"; "waubesa"; "kegonsa"] _ _ _ _ _ _).
  - vm_compute. reflexivity.
  - reflexivity.
  - reflexivity.
  - reflexivity.
  - reflexivity.
  - reflexivity.
Defined.

Lemma scrape_missing_lake_witness :
  Ref.scrape (Sample.serve Cases.only_mendota Sample.two_sites) None None
  = ([ "http://waterservices.usgs.gov/nwis/iv/?&sites=05428000,05429000,05429485,425715089164700&format=json";
       "https://waterservices.usgs.gov/nwis/site/?&sites=05428000,05429000,05429485,425715089164700&format=rdb" ],
     Raise (KeyError (PStr "monona"))).
Proof.
  eapply (scrape_missing_lake Ref.float_of_str Ref.to_datetime Ref.read_csv
            (Sample.serve Cases.only_mendota Sample.two_sites) None None []
            "" _ _ _ [(PStr "mendota", PFloat Sample.elevation_840)]
            "monona" (PFloat Sample.elevation_840) []).
  - reflexivity.
  - reflexivity.
  - vm_compute. reflexivity.
  - reflexivity.
  - vm_compute. reflexivity.
  - constructor; [| constructor]. exists "mendota". split; [reflexivity |].
    apply elem_of_cons. by left.
  - intros [H | H]%elem_of_cons; [discriminate H | by apply elem_of_nil in H].
Defined.

Lemma scrape_adds_each_row_witness :
  exists log out,
    Ref.scrape (Sample.serve Cases.only_mendota Cases.mendota_twice) None None
    = (log, Ok out)
    /\ value_at out "mendota" Sample.instant_t0
         (Float64.add (Float64.add Cases.height_9_52 Sample.elevation_840)
            Cases.elevation_1_5).
Proof.
  eexists _, _. split; [vm_compute; reflexivity |].
  eapply (scrape_adds_each_row Ref.float_of_str Ref.to_datetime Ref.read_csv
            (Sample.serve Cases.only_mendota Cases.mendota_twice)
            None None [] _ _ "" _ Cases.only_mendota _ "mendota" Sample.t0
            Cases.height_9_52
            [ (PStr "mendota", PFloat Sample.elevation_840);
              (PStr "mendota", PFloat Cases.elevation_1_5) ]).
  - vm_compute. reflexivity.
  - reflexivity.
  - reflexivity.
  - reflexivity.
  - reflexivity.
  - exists [],
      (Sample.time_series "LAKE MENDOTA AT MADISON, WI"
         [Sample.reading "9.52" Sample.t0]), [].
    split_and!; [reflexivity | reflexivity | constructor |].
    exists [], (Sample.reading "9.52" Sample.t0), [].
    split_and!;
      [reflexivity | reflexivity | vm_compute; reflexivity | constructor].
  - vm_compute. reflexivity.
  - exists [PStr Sample.t0].
    split; [vm_compute; reflexivity | apply elem_of_cons; by left].
  - vm_compute. reflexivity.
Defined.

Lemma scrape_no_reading_nan_witness :
  exists log out,
    Ref.scrape (Sample.serve Cases.monona_short Sample.two_sites) None None
    = (log, Ok out)
    /\ value_at out "monona" Sample.instant_t1 Float64.nan.
Proof.
  eexists _, _. split; [vm_compute; reflexivity |].
  eapply (scrape_no_reading_nan Ref.float_of_str Ref.to_datetime Ref.read_csv
            (Sample.serve Cases.monona_short Sample.two_sites)
            None None [] _ _ "" _ Cases.monona_short _
            [Sample.time_series "LAKE MENDOTA AT MADISON, WI"
               [Sample.reading "9.52" Sample.t0; Sample.reading "9.53" Sample.t1]]
            (Sample.time_series "LAKE MONONA AT MADISON, WI"
               [Sample.reading "5.25" Sample.t0])
            [] [Sample.reading "5.25" Sample.t0] "monona" Sample.t1).
  - vm_compute. reflexivity.
  - reflexivity.
  - reflexivity.
  - reflexivity.
  - reflexivity.
  - reflexivity.
  - reflexivity.
  - constructor.
  - reflexivity.
  - repeat constructor. vm_compute. discriminate.
  - vm_compute. reflexivity.
  - exists [PStr Sample.t0; PStr Sample.t1].
    split; [vm_compute; reflexivity |].
    apply elem_of_cons. right. apply elem_of_cons. by left.
  - vm_compute. reflexivity.
Defined.

(** ** The store and its tests *)

Section StoreInvariants.

Import Store.

Implicit Types (table stored : list Row) (files : gmap string (list Row)).

Lemma insert_rows_Ok_iff table stored :
  (exists stored', insert_rows table stored = (stored', Ok tt))
  <-> NoDup (map timestamp table)
      /\ Forall (fun row => timestamp row ∉ map timestamp stored) table.
Proof.
  revert stored. induction table as [|row table IH]; intros stored; simpl.
  - split; [intros _ | by eexists]. split; constructor.
  - destruct (decide (timestamp row ∈ map timestamp stored)) as [Hin|Hnew].
    + split; [by intros [? ?] |].
      intros [_ Hall]. by inversion Hall.
    + rewrite IH, map_app. simpl. split.
      * intros [Hnd Hall]. split_and!.
        -- constructor; [| done]. intros Hrow.
           apply list_elem_of_fmap in Hrow as (row' & Heq & Hrow').
           rewrite Forall_forall in Hall. apply (Hall _ Hrow').
           rewrite Heq. apply elem_of_app. right. apply elem_of_cons. by left.
        -- constructor; [done |].
           eapply Forall_impl; [exact Hall |]. intros row' Hrow' Hin.
           apply Hrow', elem_of_app. by left.
      * intros [Hnd Hall].
        apply NoDup_cons in Hnd as [Hrow Hnd].
        inversion Hall as [|? ? _ Hrest]; subst.
        split; [done |]. rewrite Forall_forall in Hrest |- *.
        intros row' Hrow' [Hin | Hin%list_elem_of_singleton]%elem_of_app.
        -- by apply (Hrest _ Hrow').
        -- apply Hrow. rewrite <- Hin. by apply list_elem_of_fmap_2.
Qed.

Lemma insert_rows_keeps table stored stored' r :
  insert_rows table stored = (stored', r) ->
  exists added, stored' = stored ++ added.
Proof.
  revert stored. induction table as [|row table IH]; intros stored; simpl.
  - intros [= <- _]. exists []. by rewrite app_nil_r.
  - destruct (decide _).
    + intros [= <- _]. exists []. by rewrite app_nil_r.
    + intros (added & ->)%IH. exists (row :: added). by rewrite <- app_assoc.
Qed.

(** In the store as the specification describes it, an insert
    succeeds exactly when the timestamps of the table are distinct and
    none of them is stored already, and the rows read back afterwards
    are the rows stored before followed by the rows of the table, in
    their order. *)
Lemma store_insert_succeeds_iff policy path table files :
  (snd (insert policy path table files) = Ok tt
   <-> NoDup (map timestamp table)
       /\ Forall (fun row => timestamp row ∉ map timestamp (levels path files))
            table)
  /\ (snd (insert policy path table files) = Ok tt ->
      to_table path (fst (insert policy path table files))
      = to_table path files ++ table).
Proof.
  pose proof (insert_rows_Ok_iff table (levels path files)) as Hiff.
  unfold insert.
  destruct (insert_rows table (levels path files)) as [stored' [[]|e]] eqn:Hrows.
  - simpl. split.
    + split; [intros _ | done]. apply Hiff. by eexists.
    + intros _. unfold to_table, levels at 1. rewrite lookup_insert_eq. simpl.
      by apply insert_rows_Ok in Hrows.
  - assert (Hno : ~ (NoDup (map timestamp table)
                     /\ Forall (fun row => timestamp row
                                           ∉ map timestamp (levels path files))
                          table)).
    { intros [stored'' H]%Hiff. congruence. }
    destruct policy; simpl; (split; [split; [done | tauto] | done]).
Qed.

(** In the store as the specification describes it, an insert,
    whether it succeeds or fails and under either policy, keeps the rows
    that were stored, in their order, touches no other file, and leaves
    the stored timestamps distinct when they were. *)
Lemma store_insert_keeps policy path table files :
  NoDup (map timestamp (levels path files)) ->
  (exists added,
     levels path (fst (insert policy path table files))
     = levels path files ++ added)
  /\ NoDup (map timestamp (levels path (fst (insert policy path table files))))
  /\ (forall other, other <> path ->
        fst (insert policy path table files) !! other = files !! other).
Proof.
  intros Hnd. unfold insert.
  destruct (insert_rows table (levels path files)) as [stored' r] eqn:Hrows.
  pose proof (insert_rows_keeps _ _ _ _ Hrows) as [added Hadded].
  pose proof (insert_rows_NoDup _ _ _ _ Hnd Hrows) as Hnd'.
  assert (Hupd : levels path (<[path := stored']> files) = stored').
  { unfold levels. by rewrite lookup_insert_eq. }
  destruct r as [[]|e]; [| destruct policy]; simpl.
  - rewrite Hupd. split_and!; [by exists added | done |].
    intros other Hne. by rewrite lookup_insert_ne.
  - rewrite Hupd. split_and!; [by exists added | done |].
    intros other Hne. by rewrite lookup_insert_ne.
  - split_and!; [exists []; by rewrite app_nil_r | done | done].
Qed.

End StoreInvariants.

Lemma store_insert_keeps_witness :
  NoDup (map Store.timestamp
           (Store.levels "test.db"
              (fst (Store.insert Store.KeepEarlierRows "test.db"
                      (Store.example_df ++ Store.example_df)
                      (Store.open "test.db" ∅))))).
Proof.
  apply (store_insert_keeps Store.KeepEarlierRows "test.db"
           (Store.example_df ++ Store.example_df) (Store.open "test.db" ∅)).
  vm_compute. constructor.
Defined.

Lemma delete_test_db_file_lookup path (files : gmap string (list Store.Row)) :
  fst (TestDB._delete_test_db_file None path files) !! path = None.
Proof.
  unfold TestDB._delete_test_db_file, TestDB.unlink.
  destruct (files !! path) as [rows|] eqn:Hfile; simpl;
    [apply lookup_delete_eq | done].
Qed.

Lemma os_error_not_missing e :
  String.eqb (TestDB.os_error_name e) "FileNotFoundError" = false.
Proof. by destruct e. Qed.

(** X13. [_delete_test_db_file] fails exactly when the operating
    system refuses the unlink with an error other than
    [FileNotFoundError]: that error is passed on as it is, and no file
    is touched.  Otherwise it returns, whether or not the file is
    there: afterwards the path has no file, and every other file is as
    it was. *)
Theorem delete_test_db_file_clears refused path
    (files : gmap string (list Store.Row)) :
  match refused with
  | Some e =>
      TestDB._delete_test_db_file refused path files
      = (files, Raise (LibraryError (TestDB.os_error_name e)))
  | None =>
      snd (TestDB._delete_test_db_file refused path files) = Ok tt
      /\ fst (TestDB._delete_test_db_file refused path files) !! path = None
      /\ (forall other, other <> path ->
            fst (TestDB._delete_test_db_file refused path files) !! other
            = files !! other)
  end.
Proof.
  destruct refused as [e|].
  - unfold TestDB._delete_test_db_file, TestDB.unlink.
    by rewrite os_error_not_missing.
  - split_and!; [| apply delete_test_db_file_lookup |].
    + unfold TestDB._delete_test_db_file, TestDB.unlink.
      by destruct (files !! path).
    + intros other Hne. unfold TestDB._delete_test_db_file, TestDB.unlink.
      destruct (files !! path) as [rows|] eqn:Hfile; simpl; [| done].
      by rewrite lookup_delete_ne.
Qed.

Lemma float_eqb_refl f : Float64.eqb f f = negb (Float64.is_nan f).
Proof.
  destruct f as [s|s| |s m e]; [by destruct s | by destruct s | done |].
  assert (Pos.compare_cont Eq m m = Eq) as Hm by apply Pos.compare_refl.
  destruct s; cbn; by rewrite Z.compare_refl, Hm.
Qed.

(** X14. The comparison of [test_to_df], [==] value by value, accepts
    the row read back from the store as the specification describes it
    exactly when none of the four heights of the example is NaN: the
    test cannot pass for a row with a missing height, although the row
    is stored and read back as it is. *)
Theorem test_to_df_passes_iff policy path example files :
  TestDB.test_to_df policy path example files = true
  <-> Float64.is_nan (Store.mendota example) = false
      /\ Float64.is_nan (Store.monona example) = false
      /\ Float64.is_nan (Store.waubesa example) = false
      /\ Float64.is_nan (Store.kegonsa example) = false.
Proof.
  unfold TestDB.test_to_df, TestDB.setup_method.
  pose proof (delete_test_db_file_lookup path files) as Hnone.
  set (files0 := fst (TestDB._delete_test_db_file None path files)) in *.
  unfold Store.open. rewrite Hnone.
  unfold Store.insert, Store.levels. rewrite lookup_insert_eq. simpl.
  unfold Store.to_table, Store.levels. rewrite lookup_insert_eq. simpl.
  unfold TestDB.values_all_equal. simpl.
  rewrite !float_eqb_refl, !andb_true_r, !andb_true_iff, !negb_true_iff.
  tauto.
Qed.
